(** * System health dashboard: sampling, retention, streaming and the
      snapshot contract

    A verification development for [backend/app/main.py] (the CPU sampler,
    the bounded history buffer, the point-in-time query and the websocket
    stream) and [backend/app/models/system_health.py] (the pydantic models of
    the snapshot contract). *)

From Stdlib Require Import String.
From Stdlib Require Import List ZArith QArith Bool Arith Lia Sorted.
Import ListNotations.

Set Warnings "-register-all".

Local Open Scope string_scope.
Local Open Scope list_scope.
Local Open Scope nat_scope.

(** ** Python values *)

Module PyValue.

(** A Python [float]: a finite number (every finite binary64 value is a
    rational; comparisons against the integer bounds used here are exact),
    an infinity, or NaN. *)
Inductive pyfloat : Type :=
| FNum (q : Q)
| FInf (negative : bool)
| FNaN.

(** [x <= y] on floats: false as soon as one side is NaN. *)
Definition fle (x y : pyfloat) : bool :=
  match x, y with
  | FNaN, _ | _, FNaN => false
  | FInf true, _ => true
  | _, FInf false => true
  | FNum p, FNum q => Qle_bool p q
  | _, _ => false
  end.

(** The values a collector can hand over: [None], booleans, integers,
    floats, strings, datetimes (microseconds since the epoch), lists, tuples
    and dicts with string keys (insertion ordered, as in Python). *)
Inductive value : Type :=
| VNone
| VBool (b : bool)
| VInt (n : Z)
| VFloat (x : pyfloat)
| VStr (s : string)
| VDatetime (us : Z)
| VList (vs : list value)
| VTuple (vs : list value)
| VDict (kvs : list (string * value)).

(** [d.get(k)]: the value stored under [k], if any. *)
Fixpoint dict_get (k : string) (kvs : list (string * value)) : option value :=
  match kvs with
  | [] => None
  | (k', v) :: rest => if String.eqb k k' then Some v else dict_get k rest
  end.

End PyValue.
Export PyValue.

(** ** [collections.deque] with [maxlen] *)

Module Deque.
Section Bounded.
Context {A : Type}.

(** [deque(maxlen=n).append(x)]: the item is added on the right and, when
    the deque then holds more than [maxlen] items, one item is discarded
    from the left. The deque is kept oldest first. *)
Definition append (maxlen : nat) (d : list A) (x : A) : list A :=
  let d' := d ++ [x] in
  if maxlen <? length d' then tl d' else d'.

(** A sequence of appends, starting from a given deque. *)
Definition extend (maxlen : nat) (d : list A) (xs : list A) : list A :=
  fold_left (append maxlen) xs d.

(** The last [n] items of a list, in order. *)
Definition lastn (n : nat) (l : list A) : list A :=
  skipn (length l - n) l.

(** [d[-1] if d else None]. *)
Definition peek_right (d : list A) : option A :=
  match d with
  | [] => None
  | x :: rest => Some (last rest x)
  end.
End Bounded.
End Deque.

(** ** main.py *)

Module Main.

(** [cpu_buf = deque(maxlen=900)]. *)
Definition maxlen : nat := 900.

(** What one sampler cycle reads from its environment: [time.time()],
    [psutil.cpu_percent(interval=None)] and the per-cpu variant. *)
Record Reading : Type := {
  now : pyfloat;
  total : pyfloat;
  per_core : list pyfloat
}.

(** The dict built by one sampler cycle. *)
Definition cpu_entry (r : Reading) : value :=
  VDict [("t", VFloat (now r));
         ("total", VFloat (total r));
         ("per_core", VList (map VFloat (per_core r)))].

(** One iteration of [sampler]'s loop, up to its [await asyncio.sleep(1)]. *)
Definition sampler_cycle (cpu_buf : list value) (r : Reading) : list value :=
  Deque.append maxlen cpu_buf (cpu_entry r).

(** The buffer after the sampler has run the given cycles from process
    start (the deque starts empty). *)
Definition sampler_run (rs : list Reading) : list value :=
  fold_left sampler_cycle rs [].

(** [GET /metrics/now]. *)
Definition metrics_now (cpu_buf : list value) : value :=
  VDict [("cpu", match Deque.peek_right cpu_buf with
                 | Some e => e
                 | None => VNone
                 end)].

(** [GET /health]. *)
Definition health : value := VDict [("ok", VBool true)].

(** The test of [stream]'s loop: [len(cpu_buf) != last_len and cpu_buf]. *)
Definition stream_changed (cpu_buf : list value) (last_len : nat) : bool :=
  negb (length cpu_buf =? last_len) && negb (length cpu_buf =? 0).

(** The message of [stream]: [{"cpu": cpu_buf[-1]}]. *)
Definition stream_message (cpu_buf : list value) : value :=
  VDict [("cpu", last cpu_buf VNone)].

(** One subscriber of [/metrics/stream] next to the sampler, on the one
    event loop. Control changes hands only at an [await]: the sampler's
    sleep, the subscriber's sleep, and the subscriber's [send_json], whose
    argument is built before the send suspends and whose completion is
    followed by [last_len = len(cpu_buf)].

    [appends] counts the appends since process start and [delivered] lists
    what the subscriber was sent, each message with the count of appends at
    the time it was built; both are bookkeeping for the statements below. *)
Record state : Type := {
  cpu_buf : list value;
  appends : nat;
  last_len : nat;
  sending : bool;
  delivered : list (nat * value)
}.

Inductive event : Type :=
| Sample (r : Reading)   (* the sampler runs one cycle *)
| Poll                   (* the subscriber wakes up and tests the buffer *)
| SendDone.              (* the pending send_json returns *)

Definition init : state :=
  {| cpu_buf := []; appends := 0; last_len := 0; sending := false;
     delivered := [] |}.

Definition step (s : state) (e : event) : state :=
  match e with
  | Sample r =>
      {| cpu_buf := sampler_cycle (cpu_buf s) r;
         appends := S (appends s);
         last_len := last_len s;
         sending := sending s;
         delivered := delivered s |}
  | Poll =>
      if sending s then s
      else if stream_changed (cpu_buf s) (last_len s) then
        {| cpu_buf := cpu_buf s;
           appends := appends s;
           last_len := last_len s;
           sending := true;
           delivered := delivered s ++ [(appends s, stream_message (cpu_buf s))] |}
      else s
  | SendDone =>
      if sending s then
        {| cpu_buf := cpu_buf s;
           appends := appends s;
           last_len := length (cpu_buf s);
           sending := false;
           delivered := delivered s |}
      else s
  end.

Definition run (s : state) (es : list event) : state := fold_left step es s.

(** The entries appended by a run of events, in append order. *)
Fixpoint appended (es : list event) : list value :=
  match es with
  | [] => []
  | Sample r :: rest => cpu_entry r :: appended rest
  | _ :: rest => appended rest
  end.

(** A poll tick that is not interrupted: the test, the send and the update
    of [last_len]. *)
Definition tick : list event := [Poll; SendDone].

(** A sample run: the reading of cycle [k] is taken at second [k] on an
    idle machine with two cores. *)
Definition reading (k : nat) : Reading :=
  {| now := FNum (inject_Z (Z.of_nat k));
     total := FNum 0;
     per_core := [FNum 0; FNum 0] |}.

(** [n] sampler cycles, numbered from [k], each followed by a poll tick of
    the subscriber (the subscriber polls faster than the sampler samples). *)
Fixpoint cycles_with_ticks (k n : nat) : list event :=
  match n with
  | 0 => []
  | S n' => Sample (reading k) :: tick ++ cycles_with_ticks (S k) n'
  end.

(** What holds of every state reached from [init]: the append counter
    counts the appended entries, the buffer is within its capacity and its
    right end is the latest appended entry, and every delivery carries the
    entry that was the latest when its message was built. *)
Record reachable_inv (l : list value) (s : state) : Prop := {
  inv_appends : appends s = length l;
  inv_bound : length (cpu_buf s) <= maxlen;
  inv_latest : Deque.peek_right (cpu_buf s) = Deque.peek_right l;
  inv_sorted : StronglySorted lt (map fst (delivered s));
  inv_fresh :
    Forall (fun d => fst d < appends s) (delivered s)
    \/ sending s = true \/ last_len s = length (cpu_buf s);
  inv_entries :
    Forall (fun d => 1 <= fst d <= length l
                     /\ snd d = VDict [("cpu", nth (fst d - 1) l VNone)])
           (delivered s)
}.

(** The timestamp of a buffer entry, and the order it gives. *)
Definition timestamp (e : value) : option pyfloat :=
  match e with
  | VDict kvs =>
      match dict_get "t" kvs with
      | Some (VFloat x) => Some x
      | _ => None
      end
  | _ => None
  end.

Definition not_later (e1 e2 : value) : Prop :=
  match timestamp e1, timestamp e2 with
  | Some a, Some b => fle a b = true
  | _, _ => False
  end.

(** The subscriber is stalled: the buffer is full and the subscriber either
    has recorded the full length already or is about to (a send is pending). *)
Definition stalled (s : state) : Prop :=
  length (cpu_buf s) = maxlen /\ (sending s = true \/ last_len s = maxlen).

End Main.

(** ** pydantic: field types, constraints and validation *)

Module Pydantic.

(** The numeric bounds of [Field(ge=..., le=...)]; every bound in the models
    is an integer ([0], [0.0], [1], [100.0]). *)
Inductive constraint : Type :=
| Ge (bound : Z)
| Le (bound : Z).

(** How a field is declared: without a default (required), with a default
    value, or with [default_factory=datetime.now]. *)
Inductive presence : Type :=
| Required
| Default (v : value)
| DefaultNow.

(** Field annotations. [TModel] is a nested [BaseModel] with its class name
    and its fields in declaration order. *)
Inductive ty : Type :=
| TStr
| TInt
| TFloat
| TBool
| TDatetime
| TLiteral (members : list string)
| TOptional (t : ty)
| TList (t : ty)
| TTuple (ts : list ty)
| TDict (t : ty)                          (* Dict[str, t] *)
| TModel (cls : string) (fields : list field)
with field : Type :=
| Fld (name : string) (t : ty) (p : presence) (cs : list constraint).

Definition fname (f : field) : string := let 'Fld n _ _ _ := f in n.
Definition ftype (f : field) : ty := let 'Fld _ t _ _ := f in t.
Definition fpresence (f : field) : presence := let 'Fld _ _ p _ := f in p.
Definition fconstraints (f : field) : list constraint := let 'Fld _ _ _ cs := f in cs.

Definition is_required (p : presence) : bool :=
  match p with Required => true | _ => false end.

(** One bound checked on a number ([number_size_validator]); it is run on
    the value the field's type has already converted, so anything that is
    not a number here is [None] under [Optional], or sits on a field without
    bounds. *)
Definition check (c : constraint) (v : value) : bool :=
  match v, c with
  | VInt n, Ge b => (b <=? n)%Z
  | VInt n, Le b => (n <=? b)%Z
  | VFloat x, Ge b => fle (FNum (inject_Z b)) x
  | VFloat x, Le b => fle x (FNum (inject_Z b))
  | _, _ => true
  end.

Definition checks (cs : list constraint) (v : value) : bool :=
  forallb (fun c => check c v) cs.

(** What the interpreter makes of a string or of a sequence where pydantic
    asks it to convert one. These are not part of the models: everything
    below holds whatever they answer.
    - [int_of_str s]: [int(s)] as [int_validator] calls it;
    - [float_of_str s]: [float(s)];
    - [datetime_of_str s]: [s] matches pydantic's datetime pattern and names
      a valid date and time;
    - [dict_of v]: the items of [dict(v)] for a string, list or tuple [v]. *)
Class Builtins : Type := {
  int_of_str : string -> option Z;
  float_of_str : string -> option pyfloat;
  datetime_of_str : string -> bool;
  dict_of : value -> option (list (value * value))
}.

(** [float(n)] for an integer: [OverflowError] when [n] rounds beyond the
    largest double. The number itself is kept: the bounds of the models are
    small integers, which rounding does not cross. *)
Definition float_of_int (n : Z) : option pyfloat :=
  if (Z.abs n <? 2 ^ 1024 - 2 ^ 970)%Z then Some (FNum (inject_Z n)) else None.

(** [int(x)] for a finite float: truncation towards zero. *)
Definition int_of_float (x : pyfloat) : option Z :=
  match x with
  | FNum q => Some (Z.quot (Qnum q) (Zpos (Qden q)))
  | _ => None
  end.

Definition int_of_bool (b : bool) : Z := if b then 1%Z else 0%Z.

(** [str(n)] for an integer: the interpreter refuses ([ValueError]) to print
    an integer of more than 4300 digits. *)
Definition str_of_int (n : Z) : bool := (Z.abs n <? 10 ^ 4300)%Z.

Definition is_nan (x : pyfloat) : bool :=
  match x with FNaN => true | _ => false end.

Definition lower_char (c : Ascii.ascii) : Ascii.ascii :=
  let n := Ascii.nat_of_ascii c in
  if (65 <=? n) && (n <=? 90) then Ascii.ascii_of_nat (n + 32) else c.

Fixpoint lower (s : string) : string :=
  match s with
  | EmptyString => EmptyString
  | String c rest => String (lower_char c) (lower rest)
  end.

Definition BOOL_FALSE : list string := ["0"; "off"; "f"; "false"; "n"; "no"].
Definition BOOL_TRUE : list string := ["1"; "on"; "t"; "true"; "y"; "yes"].

Section Validation.
Context `{Builtins}.

(** [str_validator]: strings, and numbers (booleans included) through
    [str]. *)
Definition as_str (v : value) : bool :=
  match v with
  | VStr _ | VFloat _ | VBool _ => true
  | VInt n => str_of_int n
  | _ => false
  end.

(** [int_validator]: an [int] as it is, anything else through [int]. *)
Definition as_int (v : value) : option Z :=
  match v with
  | VInt n => Some n
  | VBool b => Some (int_of_bool b)
  | VFloat x => int_of_float x
  | VStr s => int_of_str s
  | _ => None
  end.

(** [float_validator]: a [float] as it is, anything else through [float]. *)
Definition as_float (v : value) : option pyfloat :=
  match v with
  | VFloat x => Some x
  | VInt n => float_of_int n
  | VBool b => Some (FNum (inject_Z (int_of_bool b)))
  | VStr s => float_of_str s
  | _ => None
  end.

(** [bool_validator]: [True], [False], the numbers 0 and 1, and the strings
    of [BOOL_TRUE] and [BOOL_FALSE] in any case. *)
Definition as_bool (v : value) : bool :=
  match v with
  | VBool _ => true
  | VInt n => (n =? 0)%Z || (n =? 1)%Z
  | VFloat (FNum q) => Qeq_bool q 0 || Qeq_bool q 1
  | VStr s =>
      existsb (String.eqb (lower s)) BOOL_TRUE
      || existsb (String.eqb (lower s)) BOOL_FALSE
  | _ => false
  end.

(** [parse_datetime]: a datetime as it is; a number (or a string that
    [float] reads) as seconds or milliseconds since the epoch, clamped to
    the range of datetimes, NaN being refused; any other string through the
    datetime pattern. *)
Definition as_datetime (v : value) : bool :=
  match v with
  | VDatetime _ => true
  | VInt _ | VBool _ => true
  | VFloat x => negb (is_nan x)
  | VStr s =>
      match float_of_str s with
      | Some x => negb (is_nan x)
      | None => datetime_of_str s
      end
  | _ => false
  end.

(** [sequence_like]: lists and tuples. *)
Definition sequence (v : value) : option (list value) :=
  match v with
  | VList vs | VTuple vs => Some vs
  | _ => None
  end.

(** The items of [dict(v)] for a value that is not a dict: only a string, a
    list or a tuple can be iterated. *)
Definition items_of (v : value) : option (list (value * value)) :=
  match v with
  | VStr _ | VList _ | VTuple _ => dict_of v
  | _ => None
  end.

(** The keyword arguments of [cls( **d )]: every key has to be a string. *)
Fixpoint str_keys (items : list (value * value)) : option (list (string * value)) :=
  match items with
  | [] => Some []
  | (VStr k, v) :: rest =>
      match str_keys rest with
      | Some kvs => Some ((k, v) :: kvs)
      | None => None
      end
  | _ => None
  end.

(** What a model is built from: a dict as it is, anything else through
    [dict]. *)
Definition as_dict (v : value) : option (list (string * value)) :=
  match v with
  | VDict kvs => Some kvs
  | _ =>
      match items_of v with
      | Some items => str_keys items
      | None => None
      end
  end.

(** The value a numeric field hands to its bounds. *)
Fixpoint converted (t : ty) (v : value) : value :=
  match t, v with
  | TOptional _, VNone => VNone
  | TOptional t', _ => converted t' v
  | TInt, _ => match as_int v with Some n => VInt n | None => v end
  | TFloat, _ => match as_float v with Some x => VFloat x | None => v end
  | _, _ => v
  end.

(** Does pydantic 1.x accept the value for the annotation? Scalars go
    through the validators above. [None] is accepted by [Optional] only. A
    list or a tuple is accepted for [List] and for a [Tuple] of its length.
    A model takes a dict, or what [dict] makes of the value; a missing key
    is an error only for a required field, a present key is validated
    against the field's type and, once converted, against its bounds, and
    keys that name no field are ignored. An exception that is not a
    validation error ([OverflowError] from [float]) counts as a refusal. *)
Fixpoint validate (t : ty) (v : value) {struct t} : bool :=
  match t with
  | TStr => as_str v
  | TInt => match as_int v with Some _ => true | None => false end
  | TFloat => match as_float v with Some _ => true | None => false end
  | TBool => as_bool v
  | TDatetime => as_datetime v
  | TLiteral members =>
      match v with
      | VStr s => existsb (String.eqb s) members
      | _ => false
      end
  | TOptional t' =>
      match v with
      | VNone => true
      | _ => validate t' v
      end
  | TList t' =>
      match sequence v with
      | Some vs => forallb (validate t') vs
      | None => false
      end
  | TTuple ts =>
      match sequence v with
      | Some vs =>
          (fix zip (ts : list ty) (vs : list value) {struct ts} : bool :=
             match ts, vs with
             | [], [] => true
             | t' :: ts', v' :: vs' => validate t' v' && zip ts' vs'
             | _, _ => false
             end) ts vs
      | None => false
      end
  | TDict t' =>
      match v with
      | VDict kvs => forallb (fun kv => validate t' (snd kv)) kvs
      | _ =>
          match items_of v with
          | Some items =>
              forallb (fun kv => as_str (fst kv) && validate t' (snd kv)) items
          | None => false
          end
      end
  | TModel _ fields =>
      match as_dict v with
      | Some kvs =>
          (fix each (fs : list field) : bool :=
             match fs with
             | [] => true
             | f :: fs' => validate_field f (dict_get (fname f) kvs) && each fs'
             end) fields
      | None => false
      end
  end
with validate_field (f : field) (ov : option value) {struct f} : bool :=
  match f with
  | Fld _ t p cs =>
      match ov with
      | None => negb (is_required p)
      | Some v => validate t v && checks cs (converted t v)
      end
  end.

End Validation.

End Pydantic.

(** ** models/system_health.py *)

Module SystemHealth.
Import Pydantic.

(** *** Common helpers *)

Definition Severity : ty := TLiteral ["info"; "warning"; "error"; "critical"].
Definition ServiceState : ty :=
  TLiteral ["running"; "stopped"; "paused"; "failed"; "unknown"].
Definition FirewallState : ty := TLiteral ["enabled"; "disabled"; "unknown"].
Definition AVState : ty :=
  TLiteral ["healthy"; "out_of_date"; "disabled"; "unknown"].
Definition OSType : ty :=
  TLiteral ["windows"; "linux"; "macos"; "bsd"; "unknown"].
Definition IFaceType : ty :=
  TLiteral ["ethernet"; "wifi"; "loopback"; "virtual"; "cellular"; "unknown"].
Definition Protocol : ty := TLiteral ["tcp"; "udp"; "icmp"; "other"].
Definition FilesystemType : ty :=
  TLiteral ["ntfs"; "fat32"; "exfat"; "ext4"; "xfs"; "apfs"; "btrfs"; "zfs";
            "other"].

Definition Percent : ty :=
  TModel "Percent" [Fld "value" TFloat Required [Ge 0; Le 100]].

(** *** CPU *)

Definition CPUCoreUsage : ty :=
  TModel "CPUCoreUsage"
    [Fld "core_index" TInt Required [Ge 0];
     Fld "usage_pct" TFloat Required [Ge 0; Le 100]].

Definition CPUFrequency : ty :=
  TModel "CPUFrequency"
    [Fld "current_mhz" (TOptional TFloat) (Default VNone) [Ge 0];
     Fld "min_mhz" (TOptional TFloat) (Default VNone) [Ge 0];
     Fld "max_mhz" (TOptional TFloat) (Default VNone) [Ge 0];
     Fld "turbo_mhz" (TOptional TFloat) (Default VNone) [Ge 0]].

Definition CPUTemperature : ty :=
  TModel "CPUTemperature"
    [Fld "package_c" (TOptional TFloat) (Default VNone) [];
     Fld "per_core_c" (TOptional (TList (TOptional TFloat))) (Default VNone) [];
     Fld "hotspot_c" (TOptional TFloat) (Default VNone) []].

Definition CPUThrottleStatus : ty :=
  TModel "CPUThrottleStatus"
    [Fld "is_throttling" TBool Required [];
     Fld "reason" (TOptional (TLiteral ["thermal"; "power"; "current"; "other"]))
       (Default VNone) []].

Definition CPUPower : ty :=
  TModel "CPUPower"
    [Fld "watts" (TOptional TFloat) (Default VNone) [Ge 0];
     Fld "voltage_v" (TOptional TFloat) (Default VNone) [Ge 0]].

Definition CPULoadAverages : ty :=
  TModel "CPULoadAverages"
    [Fld "over_1m" (TOptional TFloat) (Default VNone) [Ge 0];
     Fld "over_5m" (TOptional TFloat) (Default VNone) [Ge 0];
     Fld "over_15m" (TOptional TFloat) (Default VNone) [Ge 0]].

Definition TopCPUProcess : ty :=
  TModel "TopCPUProcess"
    [Fld "pid" TInt Required [];
     Fld "name" TStr Required [];
     Fld "cpu_pct" TFloat Required [Ge 0; Le 100];
     Fld "user_time_s" (TOptional TFloat) (Default VNone) [Ge 0];
     Fld "system_time_s" (TOptional TFloat) (Default VNone) [Ge 0]].

Definition CPUModel : ty :=
  TModel "CPUModel"
    [Fld "timestamp" TDatetime DefaultNow [];
     Fld "sample_interval_s" (TOptional TFloat) (Default VNone) [Ge 0];
     Fld "physical_cores" (TOptional TInt) (Default VNone) [Ge 1];
     Fld "locial_cores" (TOptional TInt) (Default VNone) [Ge 1];
     Fld "usage_total_pct" TFloat Required [Ge 0; Le 100];
     Fld "per_core" (TOptional (TList CPUCoreUsage)) (Default VNone) [];
     Fld "frequency" (TOptional CPUFrequency) (Default VNone) [];
     Fld "temperature" (TOptional CPUTemperature) (Default VNone) [];
     Fld "throttle" (TOptional CPUThrottleStatus) (Default VNone) [];
     Fld "power" (TOptional CPUPower) (Default VNone) [];
     Fld "load_avg" (TOptional CPULoadAverages) (Default VNone) [];
     Fld "context_switches_per_sec" (TOptional TFloat) (Default VNone) [Ge 0];
     Fld "interrupts_per_sec" (TOptional TFloat) (Default VNone) [Ge 0];
     Fld "top_processes" (TOptional (TList TopCPUProcess)) (Default VNone) []].

(** *** Memory (RAM) *)

Definition SwapStats : ty :=
  TModel "SwapStats"
    [Fld "total_bytes" TInt Required [Ge 0];
     Fld "used_bytes" TInt Required [Ge 0];
     Fld "usage_pct" (TOptional TFloat) (Default VNone) [Ge 0; Le 100];
     Fld "swap_in_per_sec" (TOptional TFloat) (Default VNone) [Ge 0];
     Fld "swap_out_per_sec" (TOptional TFloat) (Default VNone) [Ge 0]].

Definition PressureStatus : ty :=
  TModel "PressureStatus"
    [Fld "instant" (TOptional (TLiteral ["normal"; "elevated"; "critical"]))
       (Default VNone) [];
     Fld "score" (TOptional TFloat) (Default VNone) [Ge 0]].

Definition FaultStats : ty :=
  TModel "FaultStats"
    [Fld "soft_per_sec" (TOptional TFloat) (Default VNone) [Ge 0];
     Fld "hard_per_sec" (TOptional TFloat) (Default VNone) [Ge 0]].

Definition WindowsRAMExtras : ty :=
  TModel "WindowsRAMExtras"
    [Fld "commit_bytes" (TOptional TFloat) (Default VNone) [Ge 0];
     Fld "commit_limit_bytes" (TOptional TInt) (Default VNone) [Ge 0];
     Fld "paged_pool_bytes" (TOptional TInt) (Default VNone) [Ge 0];
     Fld "nonpaged_pool_bytes" (TOptional TInt) (Default VNone) [Ge 0]].

Definition LinuxRAMExtras : ty :=
  TModel "LinuxRAMExtras"
    [Fld "buffers_bytes" (TOptional TInt) (Default VNone) [Ge 0];
     Fld "slab_bytes" (TOptional TInt) (Default VNone) [Ge 0];
     Fld "psi_mem_some" (TOptional TFloat) (Default VNone) [Ge 0];
     Fld "psi_mem_full" (TOptional TFloat) (Default VNone) [Ge 0];
     Fld "thp_enabled" (TOptional TBool) (Default VNone) [];
     Fld "zswap_in_use_bytes" (TOptional TInt) (Default VNone) [Ge 0];
     Fld "zram_in_use_bytes" (TOptional TInt) (Default VNone) [Ge 0]].

Definition MacOSRAMExtras : ty :=
  TModel "MacOSRAMExtras"
    [Fld "wired_bytes" (TOptional TInt) (Default VNone) [Ge 0]].

Definition PlatformRAMExtras : ty :=
  TModel "PlatformRAMExtras"
    [Fld "windows" (TOptional WindowsRAMExtras) (Default VNone) [];
     Fld "linux" (TOptional LinuxRAMExtras) (Default VNone) [];
     Fld "macos" (TOptional MacOSRAMExtras) (Default VNone) []].

Definition TopMemoryProcess : ty :=
  TModel "TopMemoryProcess"
    [Fld "pid" TInt Required [];
     Fld "name" TStr Required [];
     Fld "rss_bytes" TInt Required [Ge 0];
     Fld "share_pct" (TOptional TFloat) (Default VNone) [Ge 0; Le 100];
     Fld "hard_faults_per_sec" (TOptional TFloat) (Default VNone) [Ge 0]].

Definition RAMModel : ty :=
  TModel "RAMModel"
    [Fld "timestamp" TDatetime DefaultNow [];
     Fld "sample_interval_s" (TOptional TFloat) (Default VNone) [Ge 0];
     Fld "total_bytes" TInt Required [Ge 0];
     Fld "used_effective_bytes" TInt Required [Ge 0];
     Fld "available_bytes" TInt Required [Ge 0];
     Fld "usage_pct" TFloat Required [Ge 0; Le 100];
     Fld "cache_bytes" (TOptional TInt) (Default VNone) [Ge 0];
     Fld "kernal_bytes" (TOptional TInt) (Default VNone) [Ge 0];
     Fld "compressed_bytes" (TOptional TInt) (Default VNone) [Ge 0];
     Fld "swap" (TOptional SwapStats) (Default VNone) [];
     Fld "pressure" (TOptional PressureStatus) (Default VNone) [];
     Fld "faults" (TOptional FaultStats) (Default VNone) [];
     Fld "platform" (TOptional PlatformRAMExtras) (Default VNone) [];
     Fld "top_processes" (TOptional (TList TopMemoryProcess)) (Default VNone) []].

(** *** Storage *)

Definition DiskPartition : ty :=
  TModel "DiskPartition"
    [Fld "device" TStr Required [];
     Fld "mount_point" TStr Required [];
     Fld "fs_type" FilesystemType Required [];
     Fld "total_bytes" TInt Required [Ge 0];
     Fld "used_bytes" TInt Required [Ge 0];
     Fld "free_bytes" TInt Required [Ge 0];
     Fld "usage_pct" (TOptional TFloat) (Default VNone) [Ge 0; Le 100];
     Fld "read_only" (TOptional TBool) (Default VNone) []].

Definition DiskIOStats : ty :=
  TModel "DiskIOStats"
    [Fld "device" TStr Required [];
     Fld "read_bytes_per_sec" (TOptional TFloat) (Default VNone) [Ge 0];
     Fld "write_bytes_per_sec" (TOptional TFloat) (Default VNone) [Ge 0];
     Fld "read_iops" (TOptional TFloat) (Default VNone) [Ge 0];
     Fld "write_iops" (TOptional TFloat) (Default VNone) [Ge 0];
     Fld "avg_read_ms" (TOptional TFloat) (Default VNone) [Ge 0];
     Fld "avg_write_ms" (TOptional TFloat) (Default VNone) [Ge 0]].

Definition SmartAttribute : ty :=
  TModel "SmartAttribute"
    [Fld "id" (TOptional TInt) (Default VNone) [];
     Fld "name" TStr Required [];
     Fld "value" (TOptional TFloat) (Default VNone) [];
     Fld "worst" (TOptional TFloat) (Default VNone) [];
     Fld "threshold" (TOptional TFloat) (Default VNone) [];
     Fld "raw" (TOptional TStr) (Default VNone) [];
     Fld "failed" (TOptional TBool) (Default VNone) []].

Definition DiskHealth : ty :=
  TModel "DiskHealth"
    [Fld "device" TStr Required [];
     Fld "smart_overall_pass" (TOptional TBool) (Default VNone) [];
     Fld "temperature_c" (TOptional TFloat) (Default VNone) [];
     Fld "attributes" (TOptional (TList SmartAttribute)) (Default VNone) []].

Definition StorageModel : ty :=
  TModel "StorageModel"
    [Fld "timestamp" TDatetime DefaultNow [];
     Fld "partitions" (TList DiskPartition) Required [];
     Fld "io" (TOptional (TList DiskIOStats)) (Default VNone) [];
     Fld "health" (TOptional (TList DiskHealth)) (Default VNone) []].

(** *** Network *)

Definition AddressInfo : ty :=
  TModel "AddressInfo"
    [Fld "ipv4" (TOptional TStr) (Default VNone) [];
     Fld "ipv6" (TOptional TStr) (Default VNone) [];
     Fld "mac" (TOptional TStr) (Default VNone) []].

Definition InterfaceCounters : ty :=
  TModel "InterfaceCounters"
    [Fld "bytes_sent_per_sec" (TOptional TFloat) (Default VNone) [Ge 0];
     Fld "bytes_recv_per_sec" (TOptional TFloat) (Default VNone) [Ge 0];
     Fld "packets_sent_per_sec" (TOptional TFloat) (Default VNone) [Ge 0];
     Fld "packets_recv_per_sec" (TOptional TFloat) (Default VNone) [Ge 0];
     Fld "err_in_per_sec" (TOptional TFloat) (Default VNone) [Ge 0];
     Fld "err_out_per_sec" (TOptional TFloat) (Default VNone) [Ge 0];
     Fld "drop_in_per_sec" (TOptional TFloat) (Default VNone) [Ge 0];
     Fld "drop_out_per_sec" (TOptional TFloat) (Default VNone) [Ge 0]].

(** The class body also has [addresses = AddressInfo], an assignment without
    an annotation: it declares no field, so no [addresses] entry is
    validated. *)
Definition NetworkInterface : ty :=
  TModel "NetworkInterface"
    [Fld "name" TStr Required [];
     Fld "type" IFaceType (Default (VStr "unknown")) [];
     Fld "is_up" TBool Required [];
     Fld "speed_mbps" (TOptional TFloat) (Default VNone) [Ge 0];
     Fld "duplex" (TOptional (TLiteral ["full"; "half"; "unknown"]))
       (Default (VStr "unknown")) [];
     Fld "mtu" (TOptional TInt) (Default VNone) [Ge 0];
     Fld "counters" (TOptional InterfaceCounters) (Default VNone) []].

Definition ConnectionStat : ty :=
  TModel "ConnectionStat"
    [Fld "protocol" Protocol (Default (VStr "tcp")) [];
     Fld "local_addr" (TOptional (TTuple [TStr; TInt])) (Default VNone) [];
     Fld "remote_addr" (TOptional (TTuple [TStr; TInt])) (Default VNone) [];
     Fld "status" (TOptional TStr) (Default VNone) [];
     Fld "pid" (TOptional TInt) (Default VNone) []].

Definition LatencyProbe : ty :=
  TModel "LatencyProbe"
    [Fld "name" TStr Required [];
     Fld "target" TStr Required [];
     Fld "rtt_ms" (TOptional TFloat) (Default VNone) [Ge 0];
     Fld "packet_loss_pct" (TOptional TFloat) (Default VNone) [Ge 0; Le 100]].

Definition NetworkModel : ty :=
  TModel "NetworkModel"
    [Fld "timestamp" TDatetime DefaultNow [];
     Fld "interfaces" (TList NetworkInterface) Required [];
     Fld "connections_sample" (TOptional (TList ConnectionStat)) (Default VNone) [];
     Fld "probes" (TOptional (TList LatencyProbe)) (Default VNone) []].

(** *** Hardware health: temperatures, fans, battery, GPU *)

Definition TempSensorReading : ty :=
  TModel "TempSensorReading"
    [Fld "name" TStr Required [];
     Fld "temperature_c" (TOptional TFloat) (Default VNone) []].

Definition FanReading : ty :=
  TModel "FanReading"
    [Fld "name" TStr Required [];
     Fld "rpm" (TOptional TInt) (Default VNone) [Ge 0]].

Definition BatteryStatus : ty :=
  TModel "BatteryStatus"
    [Fld "present" TBool Required [];
     Fld "percent" (TOptional TFloat) (Default VNone) [Ge 0; Le 100];
     Fld "charge_watts" (TOptional TFloat) (Default VNone) [Ge 0];
     Fld "discharge_watts" (TOptional TFloat) (Default VNone) [Ge 0];
     Fld "is_charging" (TOptional TBool) (Default VNone) [];
     Fld "cycles" (TOptional TInt) (Default VNone) [Ge 0];
     Fld "health_pct" (TOptional TFloat) (Default VNone) [Ge 0];
     Fld "design_capacity_wh" (TOptional TFloat) (Default VNone) [Ge 0];
     Fld "full_charge_capacity_wh" (TOptional TFloat) (Default VNone) [Ge 0]].

Definition GPUProcess : ty :=
  TModel "GPUProcess"
    [Fld "pid" TInt Required [];
     Fld "name" TStr Required [];
     Fld "gpu_util_pct" (TOptional TFloat) (Default VNone) [Ge 0; Le 100];
     Fld "vram_bytes" (TOptional TInt) (Default VNone) [Ge 0]].

Definition GPUModel : ty :=
  TModel "GPUModel"
    [Fld "name" TStr Required [];
     Fld "vendor" (TOptional TStr) (Default VNone) [];
     Fld "driver_version" (TOptional TStr) (Default VNone) [];
     Fld "usage_pct" (TOptional TFloat) (Default VNone) [Ge 0; Le 100];
     Fld "vram_total_bytes" (TOptional TInt) (Default VNone) [Ge 0];
     Fld "vram_used_bytes" (TOptional TInt) (Default VNone) [Ge 0];
     Fld "temperature_c" (TOptional TFloat) (Default VNone) [];
     Fld "power_watts" (TOptional TFloat) (Default VNone) [Ge 0];
     Fld "processes" (TOptional (TList GPUProcess)) (Default VNone) []].

Definition HardwareHealthModel : ty :=
  TModel "HardwareHealthModel"
    [Fld "timestamp" TDatetime DefaultNow [];
     Fld "temperatures" (TOptional (TList TempSensorReading)) (Default VNone) [];
     Fld "fans" (TOptional (TList FanReading)) (Default VNone) [];
     Fld "battery" (TOptional BatteryStatus) (Default VNone) [];
     Fld "gpus" (TOptional (TList GPUModel)) (Default VNone) []].

(** *** Processes, services, boot *)

Definition TopIOProcess : ty :=
  TModel "TopIOProcess"
    [Fld "pid" TInt Required [];
     Fld "name" TStr Required [];
     Fld "read_bytes_per_sec" (TOptional TFloat) (Default VNone) [Ge 0];
     Fld "write_bytes_per_sec" (TOptional TFloat) (Default VNone) [Ge 0]].

Definition ProcessSnapshot : ty :=
  TModel "ProcessSnapshot"
    [Fld "total_processes" (TOptional TInt) (Default VNone) [Ge 0];
     Fld "runnning" (TOptional TInt) (Default VNone) [Ge 0];
     Fld "sleeping" (TOptional TInt) (Default VNone) [Ge 0];
     Fld "stopped" (TOptional TInt) (Default VNone) [Ge 0];
     Fld "zombies" (TOptional TInt) (Default VNone) [Ge 0];
     Fld "top_cpu" (TOptional (TList TopCPUProcess)) (Default VNone) [];
     Fld "top_mem" (TOptional (TList TopMemoryProcess)) (Default VNone) [];
     Fld "top_io" (TOptional (TList TopIOProcess)) (Default VNone) []].

Definition ServiceStatus : ty :=
  TModel "ServiceStatus"
    [Fld "name" TStr Required [];
     Fld "state" ServiceState Required [];
     Fld "uptime_s" (TOptional TFloat) (Default VNone) [Ge 0];
     Fld "restart_count" (TOptional TInt) (Default VNone) [Ge 0]].

Definition ServicesModel : ty :=
  TModel "ServicesModel"
    [Fld "timestamp" TDatetime DefaultNow [];
     Fld "critical" (TOptional (TList ServiceStatus)) (Default VNone) [];
     Fld "others" (TOptional (TList ServiceStatus)) (Default VNone) []].

Definition BootInfo : ty :=
  TModel "BootInfo"
    [Fld "last_boot_time" (TOptional TDatetime) (Default VNone) [];
     Fld "uptime_s" (TOptional TFloat) (Default VNone) [Ge 0];
     Fld "previous_boot_times" (TOptional (TList TDatetime)) (Default VNone) []].

(** *** Logs and crashes *)

Definition LogEvent : ty :=
  TModel "LogEvent"
    [Fld "time" TDatetime Required [];
     Fld "source" TStr Required [];
     Fld "severity" Severity Required [];
     Fld "code" (TOptional TStr) (Default VNone) [];
     Fld "message" TStr Required [];
     Fld "count" (TOptional TInt) (Default VNone) [Ge 1]].

Definition LogsModel : ty :=
  TModel "LogsModel"
    [Fld "timestamp" TDatetime DefaultNow [];
     Fld "recent_critical" (TOptional (TList LogEvent)) (Default VNone) [];
     Fld "recent_warnings" (TOptional (TList LogEvent)) (Default VNone) []].

Definition CrashRecord : ty :=
  TModel "CrashRecord"
    [Fld "time" TDatetime Required [];
     Fld "component" TStr Required [];
     Fld "type"
       (TLiteral ["app_crash"; "driver_fault"; "kernal_panic"; "bsod"; "other"])
       Required [];
     Fld "exit_code" (TOptional TStr) (Default VNone) [];
     Fld "dump_path" (TOptional TStr) (Default VNone) []].

Definition CrashMonitorModel : ty :=
  TModel "CrashMonitorModel"
    [Fld "timestamp" TDatetime Required [];
     Fld "recent" (TOptional (TList CrashRecord)) (Default VNone) []].

(** *** Security *)

Definition SecurityFinding : ty :=
  TModel "SecurityFinding"
    [Fld "time" TDatetime Required [];
     Fld "tite" TStr Required [];
     Fld "severity" Severity Required [];
     Fld "details" (TOptional TStr) (Default VNone) []].

Definition SecurityModel : ty :=
  TModel "SecurityModel"
    [Fld "timestamp" TDatetime DefaultNow [];
     Fld "firewall" FirewallState (Default (VStr "unknown")) [];
     Fld "av" AVState (Default (VStr "unknown")) [];
     Fld "av_definitions_age_days" (TOptional TFloat) (Default VNone) [Ge 0];
     Fld "suspicious_processes" (TOptional (TList TInt)) (Default VNone) [];
     Fld "findings" (TOptional (TList SecurityFinding)) (Default VNone) []].

(** *** Virtualization and containers *)

Definition ContainerStat : ty :=
  TModel "ContainerStat"
    [Fld "id" TStr Required [];
     Fld "name" (TOptional TStr) (Default VNone) [];
     Fld "cpu_pct" (TOptional TFloat) (Default VNone) [Ge 0; Le 100];
     Fld "mem_bytes" (TOptional TInt) (Default VNone) [Ge 0];
     Fld "mem_limit_bytes" (TOptional TInt) (Default VNone) [Ge 0];
     Fld "net_rx_bytes_per_sec" (TOptional TFloat) (Default VNone) [Ge 0];
     Fld "net_tx_bytes_per_sec" (TOptional TFloat) (Default VNone) [Ge 0];
     Fld "state" (TOptional TStr) (Default VNone) []].

Definition VMStat : ty :=
  TModel "VMStat"
    [Fld "name" TStr Required [];
     Fld "vcpu_count" (TOptional TInt) (Default VNone) [Ge 1];
     Fld "cpu_pct" (TOptional TFloat) (Default VNone) [Ge 0; Le 100];
     Fld "mem_bytes" (TOptional TInt) (Default VNone) [Ge 0];
     Fld "mem_limit_bytes" (TOptional TInt) (Default VNone) [Ge 0];
     Fld "state" (TOptional TStr) (Default VNone) []].

Definition VirtualizationModel : ty :=
  TModel "VirtualizationModel"
    [Fld "timestamp" TDatetime DefaultNow [];
     Fld "Containers" (TOptional (TList ContainerStat)) (Default VNone) [];
     Fld "vms" (TOptional (TList VMStat)) (Default VNone) [];
     Fld "hypervisor" (TOptional TStr) (Default VNone) []].

(** *** Remote connectivity *)

Definition EndpointHealth : ty :=
  TModel "EndpointHealth"
    [Fld "name" TStr Required [];
     Fld "url_or_host" TStr Required [];
     Fld "status" (TLiteral ["up"; "degraded"; "down"; "unknown"])
       (Default (VStr "unknown")) [];
     Fld "latency_ms" (TOptional TFloat) (Default VNone) [Ge 0];
     Fld "last_ok" (TOptional TDatetime) (Default VNone) [];
     Fld "http_status" (TOptional TInt) (Default VNone) [];
     Fld "error" (TOptional TStr) (Default VNone) []].

Definition RemoteConnectivityModel : ty :=
  TModel "RemoteConnectivityModel"
    [Fld "timestamp" TDatetime DefaultNow [];
     Fld "endpoints" (TOptional (TList EndpointHealth)) (Default VNone) []].

(** *** Alerts *)

Definition Alert : ty :=
  TModel "Alert"
    [Fld "time" TDatetime DefaultNow [];
     Fld "scope"
       (TLiteral ["cpu"; "ram"; "storage"; "network"; "hardware"; "gpu";
                  "processes"; "services"; "boot"; "logs"; "crash";
                  "security"; "virtualization"; "remote"; "system"])
       Required [];
     Fld "severity" Severity Required [];
     Fld "title" TStr Required [];
     Fld "details" (TOptional TStr) (Default VNone) []].

(** *** Top-level snapshot *)

Definition HostInfo : ty :=
  TModel "HostInfo"
    [Fld "hostname" (TOptional TStr) (Default VNone) [];
     Fld "os" OSType (Default (VStr "unknown")) [];
     Fld "os_version" (TOptional TStr) (Default VNone) [];
     Fld "kernel_version" (TOptional TStr) (Default VNone) [];
     Fld "arch" (TOptional TStr) (Default VNone) [];
     Fld "serial_or_uuid" (TOptional TStr) (Default VNone) [];
     Fld "tags" (TOptional (TDict TStr)) (Default VNone) []].

(** The optional panels of a snapshot, in declaration order ([cpu] to
    [remote], then the derived [alerts]). *)
Definition panels : list field :=
  [Fld "cpu" (TOptional CPUModel) (Default VNone) [];
   Fld "ram" (TOptional RAMModel) (Default VNone) [];
   Fld "storage" (TOptional StorageModel) (Default VNone) [];
   Fld "network" (TOptional NetworkModel) (Default VNone) [];
   Fld "hardware" (TOptional HardwareHealthModel) (Default VNone) [];
   Fld "processes" (TOptional ProcessSnapshot) (Default VNone) [];
   Fld "services" (TOptional ServicesModel) (Default VNone) [];
   Fld "boot" (TOptional BootInfo) (Default VNone) [];
   Fld "logs" (TOptional LogsModel) (Default VNone) [];
   Fld "crash" (TOptional CrashMonitorModel) (Default VNone) [];
   Fld "security" (TOptional SecurityModel) (Default VNone) [];
   Fld "virtualization" (TOptional VirtualizationModel) (Default VNone) [];
   Fld "remote" (TOptional RemoteConnectivityModel) (Default VNone) [];
   Fld "alerts" (TOptional (TList Alert)) (Default VNone) []].

Definition SystemHealthSnapShot : ty :=
  TModel "SystemHealthSnapShot"
    (Fld "collected_at" TDatetime DefaultNow []
     :: Fld "sample_interval_s" (TOptional TFloat) (Default VNone) [Ge 0]
     :: Fld "host" HostInfo Required []
     :: panels).

End SystemHealth.

(** ** Vocabulary of the contract statements *)

Module Contract.
Import Pydantic SystemHealth.

(** [v[k]] when [v] is a dict that holds [k]. *)
Definition key (k : string) (v : value) : option value :=
  match v with
  | VDict kvs => dict_get k kvs
  | _ => None
  end.

Definition present (ov : option value) : list value :=
  match ov with
  | Some v => [v]
  | None => []
  end.

Definition items (ov : option value) : list value :=
  match ov with
  | Some (VList vs) => vs
  | _ => []
  end.

Section Vocabulary.
Context `{Builtins}.

(** A field taken alone: does it accept the value? *)
Definition accepts (f : field) (v : value) : bool := validate_field f (Some v).

(** What a model finds under [k] in the value it is built from. *)
Definition supplied (k : string) (v : value) : option value :=
  match as_dict v with
  | Some kvs => dict_get k kvs
  | None => None
  end.

(** *** Percentages of the CPU panel *)

(** The check pydantic runs on a field declared
    [float = Field(ge=0.0, le=100.0)]. *)
Definition pct_ok (v : value) : bool :=
  validate TFloat v && checks [Ge 0; Le 100] (converted TFloat v).

(** A number within, respectively outside, [0, 100]; NaN and the infinities
    are outside. *)
Definition pct_inside (v : value) : Prop :=
  match v with
  | VInt n => (0 <= n <= 100)%Z
  | VFloat (FNum q) => (0 <= q /\ q <= 100)%Q
  | _ => False
  end.

Definition pct_outside (v : value) : Prop :=
  match v with
  | VInt n => (n < 0 \/ 100 < n)%Z
  | VFloat (FNum q) => (q < 0 \/ 100 < q)%Q
  | VFloat (FInf _) => True
  | VFloat FNaN => True
  | _ => False
  end.

(** The values a CPU panel gives to its percentage fields:
    [usage_total_pct], [per_core[i].usage_pct], [top_processes[j].cpu_pct]. *)
Definition cpu_panel_percentages (cpu : value) : list value :=
  present (key "usage_total_pct" cpu)
  ++ flat_map (fun core => present (key "usage_pct" core))
       (items (key "per_core" cpu))
  ++ flat_map (fun proc => present (key "cpu_pct" proc))
       (items (key "top_processes" cpu)).

Definition cpu_percentages (c : value) : list value :=
  match key "cpu" c with
  | Some cpu => cpu_panel_percentages cpu
  | None => []
  end.

(** [d[k] = g(d[k])] where [d] is a dict that holds [k]; anything else is
    left as it is. *)
Definition dict_update (k : string) (g : value -> value)
    (kvs : list (string * value)) : list (string * value) :=
  map (fun kv => if String.eqb k (fst kv) then (fst kv, g (snd kv)) else kv) kvs.

Definition on_key (k : string) (g : value -> value) (v : value) : value :=
  match v with
  | VDict kvs => VDict (dict_update k g kvs)
  | _ => v
  end.

Definition on_items (g : value -> value) (v : value) : value :=
  match v with
  | VList vs => VList (map g vs)
  | _ => v
  end.

Definition zero (_ : value) : value := VInt 0.

(** The candidate with every percentage of its CPU panel overwritten by 0:
    what is left of it once the percentages are put aside. *)
Definition erase_cpu_panel (cpu : value) : value :=
  on_key "usage_total_pct" zero
    (on_key "per_core" (on_items (on_key "usage_pct" zero))
       (on_key "top_processes" (on_items (on_key "cpu_pct" zero)) cpu)).

Definition erase_cpu_percentages (c : value) : value :=
  on_key "cpu" erase_cpu_panel c.

(** Two candidates that differ at most in the percentages of their CPU
    panels. *)
Definition otherwise_identical (c c' : value) : Prop :=
  erase_cpu_percentages c = erase_cpu_percentages c'.

(** Nothing but a CPU percentage can be wrong with the candidate. *)
Definition other_constraints_hold (c : value) : Prop :=
  validate SystemHealthSnapShot (erase_cpu_percentages c) = true.

(** *** Required fields and optional panels *)









(** *** Categorical fields *)

(** Every field declared in the models reachable from a type, with the
    class that declares it. *)
Fixpoint fields_of (t : ty) : list (string * field) :=
  match t with
  | TOptional t' => fields_of t'
  | TList t' => fields_of t'
  | TDict t' => fields_of t'
  | TTuple ts =>
      (fix all (ts : list ty) : list (string * field) :=
         match ts with
         | [] => []
         | t' :: ts' => fields_of t' ++ all ts'
         end) ts
  | TModel cls fs =>
      (fix each (fs : list field) : list (string * field) :=
         match fs with
         | [] => []
         | f :: fs' =>
             (cls, f) :: (match f with Fld _ t' _ _ => fields_of t' end)
                         ++ each fs'
         end) fs
  | _ => []
  end.

(** The members of a field declared [Literal[...]] or
    [Optional[Literal[...]]]. *)
Definition enumeration (f : field) : option (list string) :=
  match ftype f with
  | TLiteral members => Some members
  | TOptional (TLiteral members) => Some members
  | _ => None
  end.

Definition is_enumerated (f : field) : bool :=
  match enumeration f with Some _ => true | None => false end.

Definition members (f : field) : list string :=
  match enumeration f with Some ms => ms | None => [] end.

(** The fields of the snapshot contract that are declared as enumerations. *)
Definition enumerated_fields : list (string * field) :=
  filter (fun cf => is_enumerated (snd cf)) (fields_of SystemHealthSnapShot).

(** The fields that hold a category (a socket status such as ESTABLISHED or
    LISTEN, a container or VM state such as running, exited, paused) and are
    declared [Optional[str]]. *)
Definition state_strings : list (string * field) :=
  [("ConnectionStat", Fld "status" (TOptional TStr) (Default VNone) []);
   ("ContainerStat", Fld "state" (TOptional TStr) (Default VNone) []);
   ("VMStat", Fld "state" (TOptional TStr) (Default VNone) [])].

Definition categorical_fields : list (string * field) :=
  enumerated_fields ++ state_strings.

Definition has_fallback (f : field) : bool :=
  accepts f (VStr "unknown") || accepts f (VStr "other").

Definition admits_null (f : field) : bool := accepts f VNone.

(** A categorical field as the contract wants it: a closed enumeration
    with an [unknown] or [other] member, and no null in place of a member. *)
Definition well_categorised (f : field) : Prop :=
  is_enumerated f = true /\ has_fallback f = true /\ admits_null f = false.

Definition name_eqb (a b : string * string) : bool :=
  String.eqb (fst a) (fst b) && String.eqb (snd a) (snd b).

Fixpoint dedup (seen l : list (string * string)) : list (string * string) :=
  match l with
  | [] => []
  | x :: rest =>
      if existsb (name_eqb x) seen then dedup seen rest
      else x :: dedup (x :: seen) rest
  end.

(** [(Class, field)] names, each once, in declaration order. *)
Definition names (l : list (string * field)) : list (string * string) :=
  dedup [] (map (fun cf => (fst cf, fname (snd cf))) l).

(** *** Entries of the buffer *)

(** The entry conforms to the contract, as a snapshot or as a CPU panel. *)
Definition conforms (e : value) : Prop :=
  validate SystemHealthSnapShot e = true \/ validate CPUModel e = true.

End Vocabulary.

End Contract.

(** ** Several subscribers of the stream *)

Module Fanout.
Import Main.

(** The readings of the sampler cycles of a run of events. *)
Fixpoint readings (es : list event) : list Reading :=
  match es with
  | [] => []
  | Sample r :: rest => r :: readings rest
  | _ :: rest => readings rest
  end.

(** The locals of one [stream] coroutine: [last_len], whether its
    [send_json] is pending, and what it has sent so far. *)
Record subscriber : Type := {
  sub_last_len : nat;
  sub_sending : bool;
  sub_delivered : list (nat * value)
}.

(** A connection that has been accepted and has not polled yet. *)
Definition fresh : subscriber :=
  {| sub_last_len := 0; sub_sending := false; sub_delivered := [] |}.

(** The event loop with the sampler and the [stream] coroutines of all
    connections: they share [cpu_buf] and nothing else. A connection that is
    accepted late is a subscriber that has not polled yet, a connection that
    is closed is one that polls no more. *)
Record hub : Type := {
  hub_buf : list value;
  hub_appends : nat;
  hub_subs : list subscriber
}.

Inductive hub_event : Type :=
| HSample (r : Reading)      (* the sampler runs one cycle *)
| HPoll (i : nat)            (* subscriber [i] wakes up and tests the buffer *)
| HSendDone (i : nat).       (* the pending send_json of subscriber [i] returns *)

Definition hub_init (n : nat) : hub :=
  {| hub_buf := []; hub_appends := 0; hub_subs := repeat fresh n |}.

(** The body of [stream]'s loop up to the start of the send. *)
Definition sub_poll (buf : list value) (count : nat) (u : subscriber)
    : subscriber :=
  if sub_sending u then u
  else if stream_changed buf (sub_last_len u) then
    {| sub_last_len := sub_last_len u;
       sub_sending := true;
       sub_delivered := sub_delivered u ++ [(count, stream_message buf)] |}
  else u.

(** The rest of the body, once the send has returned. *)
Definition sub_send_done (buf : list value) (u : subscriber) : subscriber :=
  if sub_sending u then
    {| sub_last_len := length buf;
       sub_sending := false;
       sub_delivered := sub_delivered u |}
  else u.

Fixpoint update_nth {A : Type} (i : nat) (g : A -> A) (l : list A) : list A :=
  match l, i with
  | [], _ => []
  | x :: rest, 0 => g x :: rest
  | x :: rest, S i' => x :: update_nth i' g rest
  end.

Definition hub_step (h : hub) (e : hub_event) : hub :=
  match e with
  | HSample r =>
      {| hub_buf := sampler_cycle (hub_buf h) r;
         hub_appends := S (hub_appends h);
         hub_subs := hub_subs h |}
  | HPoll i =>
      {| hub_buf := hub_buf h;
         hub_appends := hub_appends h;
         hub_subs := update_nth i (sub_poll (hub_buf h) (hub_appends h))
                       (hub_subs h) |}
  | HSendDone i =>
      {| hub_buf := hub_buf h;
         hub_appends := hub_appends h;
         hub_subs := update_nth i (sub_send_done (hub_buf h)) (hub_subs h) |}
  end.

Definition hub_run (h : hub) (es : list hub_event) : hub :=
  fold_left hub_step es h.

(** What subscriber [i] takes part in: the sampler's cycles and its own
    steps. *)
Definition view (i : nat) (e : hub_event) : list event :=
  match e with
  | HSample r => [Sample r]
  | HPoll j => if j =? i then [Poll] else []
  | HSendDone j => if j =? i then [SendDone] else []
  end.

Definition project (i : nat) (es : list hub_event) : list event :=
  flat_map (view i) es.

(** The subscriber of the one-subscriber model. *)
Definition subscriber_of (s : state) : subscriber :=
  {| sub_last_len := last_len s;
     sub_sending := sending s;
     sub_delivered := delivered s |}.

(** A subscriber that keeps up: every sampler cycle is followed by one of
    its poll ticks. *)
Definition keeping_up (rs : list Reading) : list event :=
  flat_map (fun r => Sample r :: tick) rs.

End Fanout.

(** ** Queries on the declared models *)

Module Audit.
Import Pydantic SystemHealth Contract.

(** The names of the required fields of a model (or optional model). *)
Definition required_names (t : ty) : list string :=
  match t with
  | TModel _ fs | TOptional (TModel _ fs) =>
      map fname (filter (fun f => is_required (fpresence f)) fs)
  | _ => []
  end.

(** Does the string end with the given suffix? *)
Definition ends_with (suffix s : string) : bool :=
  (String.length suffix <=? String.length s)
  && String.eqb
       (substring (String.length s - String.length suffix)
                  (String.length suffix) s)
       suffix.

(** Fields named as percentages: [..._pct] and [percent]. *)
Definition is_percentage (f : field) : bool :=
  ends_with "_pct" (fname f) || String.eqb (fname f) "percent".

(** Fields that hold a number: a float, or an int. *)
Definition is_float (f : field) : bool :=
  match ftype f with
  | TFloat | TOptional TFloat => true
  | _ => false
  end.




Definition constraint_eqb (a b : constraint) : bool :=
  match a, b with
  | Ge x, Ge y => (x =? y)%Z
  | Le x, Le y => (x =? y)%Z
  | _, _ => false
  end.

Fixpoint constraints_eqb (l l' : list constraint) : bool :=
  match l, l' with
  | [], [] => true
  | a :: r, a' :: r' => constraint_eqb a a' && constraints_eqb r r'
  | _, _ => false
  end.

Definition has_bounds (cs : list constraint) (f : field) : bool :=
  constraints_eqb (fconstraints f) cs.

(** The declared default of the field, when it has one, passes the field's
    own validation. *)
Definition default_ok `{Builtins} (f : field) : bool :=
  match fpresence f with
  | Default v => accepts f v
  | _ => true
  end.

(** Every class of the module, in the order of the file. *)
Definition all_models : list ty :=
  [Percent; CPUCoreUsage; CPUFrequency; CPUTemperature; CPUThrottleStatus;
   CPUPower; CPULoadAverages; TopCPUProcess; CPUModel; SwapStats;
   PressureStatus; FaultStats; WindowsRAMExtras; LinuxRAMExtras;
   MacOSRAMExtras; PlatformRAMExtras; TopMemoryProcess; RAMModel;
   DiskPartition; DiskIOStats; SmartAttribute; DiskHealth; StorageModel;
   AddressInfo; InterfaceCounters; NetworkInterface; ConnectionStat;
   LatencyProbe; NetworkModel; TempSensorReading; FanReading; BatteryStatus;
   GPUProcess; GPUModel; HardwareHealthModel; TopIOProcess; ProcessSnapshot;
   ServiceStatus; ServicesModel; BootInfo; LogEvent; LogsModel; CrashRecord;
   CrashMonitorModel; SecurityFinding; SecurityModel; ContainerStat; VMStat;
   VirtualizationModel; EndpointHealth; RemoteConnectivityModel; Alert;
   HostInfo; SystemHealthSnapShot].

(** The fields a class declares itself, with the name of the class. *)
Definition own_fields (t : ty) : list (string * field) :=
  match t with
  | TModel cls fs => map (fun f => (cls, f)) fs
  | _ => []
  end.

(** Every field declared in the module, with the class declaring it. *)
Definition declared_fields : list (string * field) :=
  flat_map own_fields all_models.

Definition select (p : field -> bool) : list (string * string) :=
  names (filter (fun cf => p (snd cf)) declared_fields).

End Audit.

(** ** An interpreter for the examples *)

Module Examples.
Import Pydantic.

(** The examples below are run with an interpreter that declines every
    conversion from a string or from a sequence of pairs. None of them holds
    a string where a number or a date is expected, or builds a model from
    anything but a dict, so each of them evaluates the same under any other
    interpreter. *)
#[export] Instance declining : Builtins := {|
  int_of_str := fun _ => None;
  float_of_str := fun _ => None;
  datetime_of_str := fun _ => false;
  dict_of := fun _ => None
|}.

End Examples.

(** * Properties *)

(** ** The bounded deque *)

Section DequeFacts.
Context {A : Type}.
Implicit Types (d xs : list A) (x : A) (n : nat).

Lemma append_below n d x :
  length d < n -> Deque.append n d x = d ++ [x].
Proof.
  intros H. unfold Deque.append. cbv zeta.
  rewrite length_app. simpl.
  destruct (Nat.ltb_spec n (length d + 1)); [lia | reflexivity].
Qed.

Lemma append_full n d x :
  length d = n -> Deque.append n d x = tl (d ++ [x]).
Proof.
  intros H. unfold Deque.append. cbv zeta.
  rewrite length_app. simpl.
  destruct (Nat.ltb_spec n (length d + 1)); [reflexivity | lia].
Qed.

Lemma length_append n d x :
  length d <= n -> length (Deque.append n d x) = Nat.min (S (length d)) n.
Proof.
  intros H. destruct (Nat.eq_dec (length d) n) as [E | E].
  - rewrite append_full by assumption. subst n.
    destruct d as [| a d']; [reflexivity |].
    cbn [app tl]. rewrite length_app. cbn [length]. lia.
  - rewrite append_below by lia. rewrite length_app. cbn [length]. lia.
Qed.

Lemma length_lastn n xs : length (Deque.lastn n xs) = Nat.min (length xs) n.
Proof. unfold Deque.lastn. rewrite length_skipn. lia. Qed.

Lemma lastn_snoc n xs x :
  Deque.lastn n (xs ++ [x]) = Deque.append n (Deque.lastn n xs) x.
Proof.
  destruct (Nat.lt_ge_cases (length xs) n) as [Hlt | Hge].
  - rewrite append_below by (rewrite length_lastn; lia).
    unfold Deque.lastn. rewrite length_app. simpl.
    replace (length xs + 1 - n) with 0 by lia.
    replace (length xs - n) with 0 by lia.
    reflexivity.
  - rewrite append_full by (rewrite length_lastn; lia).
    unfold Deque.lastn. rewrite length_app. simpl.
    replace (length xs + 1 - n) with (1 + (length xs - n)) by lia.
    rewrite <- skipn_skipn.
    rewrite (skipn_app (length xs - n) xs [x]).
    replace (length xs - n - length xs) with 0 by lia.
    reflexivity.
Qed.

Lemma extend_snoc n d xs x :
  Deque.extend n d (xs ++ [x]) = Deque.append n (Deque.extend n d xs) x.
Proof. unfold Deque.extend. rewrite fold_left_app. reflexivity. Qed.

Lemma extend_lastn n xs : Deque.extend n [] xs = Deque.lastn n xs.
Proof.
  induction xs as [| x xs IH] using rev_ind.
  - unfold Deque.lastn. destruct (0 - n); reflexivity.
  - rewrite extend_snoc, IH, lastn_snoc. reflexivity.
Qed.

Lemma peek_right_snoc d x : Deque.peek_right (d ++ [x]) = Some x.
Proof.
  destruct d as [| a d']; simpl; [reflexivity |].
  f_equal. apply last_last.
Qed.

Lemma peek_right_append n d x :
  0 < n -> length d <= n -> Deque.peek_right (Deque.append n d x) = Some x.
Proof.
  intros Hn Hd. destruct (Nat.eq_dec (length d) n) as [E | E].
  - rewrite append_full by assumption.
    destruct d as [| a d']; simpl in *; [lia |].
    apply peek_right_snoc.
  - rewrite append_below by lia. apply peek_right_snoc.
Qed.

(** C3. FIFO eviction law: after more appends than the capacity, the
    deque holds exactly the last [n] appended items, oldest first; and an
    append to a full deque drops exactly the oldest item and adds the new
    one on the right. *)
Theorem fifo_eviction n xs :
  n < length xs ->
  Deque.extend n [] xs = skipn (length xs - n) xs
  /\ length (Deque.extend n [] xs) = n
  /\ (forall d x, length d = n -> Deque.append n d x = tl (d ++ [x]))
  /\ (forall o d x, length (o :: d) = n ->
        Deque.append n (o :: d) x = d ++ [x]).
Proof.
  intros H. rewrite extend_lastn. repeat split.
  - rewrite length_lastn. lia.
  - intros d x Hd. apply append_full. assumption.
  - intros o d x Hd. rewrite append_full by assumption. reflexivity.
Qed.
End DequeFacts.

(** The spec's example: capacity 3, appends A, B, C, D. *)
Lemma fifo_eviction_witness :
  3 < length ["A"; "B"; "C"; "D"]
  /\ Deque.extend 3 [] ["A"; "B"; "C"; "D"] = ["B"; "C"; "D"].
Proof.
  split; [simpl; lia |].
  exact (proj1 (fifo_eviction 3 ["A"; "B"; "C"; "D"] ltac:(simpl; lia))).
Defined.

(** ** The sampler and the point-in-time query *)

Import Main.

Lemma sampler_fold (rs : list Reading) (d : list value) :
  fold_left sampler_cycle rs d = Deque.extend maxlen d (map cpu_entry rs).
Proof.
  revert d. induction rs as [| r rs IH]; intros d; [reflexivity |].
  simpl. rewrite IH. reflexivity.
Qed.

Lemma sampler_run_lastn (rs : list Reading) :
  sampler_run rs = Deque.lastn maxlen (map cpu_entry rs).
Proof. unfold sampler_run. rewrite sampler_fold. apply extend_lastn. Qed.

Lemma sampler_run_snoc (rs : list Reading) (r : Reading) :
  sampler_run (rs ++ [r]) = sampler_cycle (sampler_run rs) r.
Proof. unfold sampler_run. rewrite fold_left_app. reflexivity. Qed.

Lemma length_sampler_run (rs : list Reading) :
  length (sampler_run rs) = Nat.min (length rs) maxlen.
Proof. rewrite sampler_run_lastn, length_lastn, length_map. reflexivity. Qed.

(** C10. After [k] sampler cycles the buffer holds [min k 900] entries: never
    more than 900, one more after each cycle below capacity, and the same
    900 after each cycle at capacity. *)
Theorem buffer_length_bounded (rs : list Reading) (r : Reading) :
  length (sampler_run rs) = Nat.min (length rs) 900
  /\ length (sampler_run rs) <= 900
  /\ length (sampler_run (rs ++ [r]))
     = if 900 <=? length rs then length (sampler_run rs)
       else S (length (sampler_run rs)).
Proof.
  pose proof (length_sampler_run rs) as H.
  pose proof (length_sampler_run (rs ++ [r])) as H'.
  rewrite length_app in H'. cbn [length] in H'.
  change maxlen with 900 in H, H'.
  repeat split; [exact H | lia |].
  destruct (Nat.leb_spec 900 (length rs)); lia.
Qed.

(** C4. [GET /metrics/now] answers [{"cpu": null}] while nothing has been
    sampled, and after any non-empty run of sampler cycles it answers with
    the entry of the latest cycle. *)
Theorem metrics_now_latest :
  metrics_now (sampler_run []) = VDict [("cpu", VNone)]
  /\ forall (rs : list Reading) (r : Reading),
       metrics_now (sampler_run (rs ++ [r])) = VDict [("cpu", cpu_entry r)].
Proof.
  split; [reflexivity |].
  intros rs r. rewrite sampler_run_snoc. unfold metrics_now, sampler_cycle.
  rewrite peek_right_append; [reflexivity | unfold maxlen; lia |].
  rewrite length_sampler_run. lia.
Qed.

(** The marker read by the stream grows by one with each cycle below
    capacity. *)
Lemma marker_grows_below_capacity (buf : list value) (r : Reading) :
  length buf < maxlen -> length (sampler_cycle buf r) = S (length buf).
Proof.
  intros H. unfold sampler_cycle. rewrite append_below by assumption.
  rewrite length_app. cbn [length]. lia.
Qed.

Lemma marker_constant_at_capacity (buf : list value) (r : Reading) :
  length buf = maxlen -> length (sampler_cycle buf r) = maxlen.
Proof.
  intros H. unfold sampler_cycle. rewrite length_append by lia. lia.
Qed.

(** C2. The marker the stream compares is [len(cpu_buf)]. Once 900 cycles
    have filled the buffer, the next cycle replaces the oldest entry by a
    new latest entry and leaves the marker at 900. *)
Theorem marker_stalls_at_capacity :
  let buf := sampler_run (map reading (seq 1 900)) in
  let buf' := sampler_cycle buf (reading 901) in
  length buf = 900
  /\ length buf' = length buf
  /\ Deque.peek_right buf = Some (cpu_entry (reading 900))
  /\ Deque.peek_right buf' = Some (cpu_entry (reading 901)).
Proof. vm_compute. repeat split; reflexivity. Qed.

(** ** The stream *)

Lemma run_snoc (s : state) (es : list event) (e : event) :
  run s (es ++ [e]) = step (run s es) e.
Proof. unfold run. rewrite fold_left_app. reflexivity. Qed.

Lemma run_app (s : state) (es es' : list event) :
  run s (es ++ es') = run (run s es) es'.
Proof. unfold run. apply fold_left_app. Qed.

Lemma appended_app (es es' : list event) :
  appended (es ++ es') = appended es ++ appended es'.
Proof.
  induction es as [| e es IH]; [reflexivity |].
  destruct e; simpl; rewrite IH; reflexivity.
Qed.

Lemma peek_right_last (l : list value) (e : value) :
  Deque.peek_right l = Some e ->
  last l VNone = e /\ nth (length l - 1) l VNone = e /\ 1 <= length l.
Proof.
  induction l as [| a l' _] using rev_ind; [discriminate |].
  rewrite peek_right_snoc. intros [= ->].
  rewrite last_last, length_app. cbn [length].
  replace (length l' + 1 - 1) with (length l') by lia.
  rewrite nth_middle. repeat split. lia.
Qed.

Lemma peek_right_nonempty (l : list value) :
  (length l =? 0) = false -> exists e, Deque.peek_right l = Some e.
Proof. destruct l; [discriminate | eexists; reflexivity]. Qed.

Lemma sorted_snoc (l : list nat) (x : nat) :
  StronglySorted lt l -> Forall (fun y => y < x) l ->
  StronglySorted lt (l ++ [x]).
Proof.
  induction 1 as [| a l Hs IH Ha]; intros Hx; simpl.
  - constructor; constructor.
  - inversion Hx; subst. constructor; [apply IH; assumption |].
    apply Forall_app. split; [assumption | constructor; [assumption | constructor]].
Qed.

Lemma entries_mono (l l' : list value) (ds : list (nat * value)) :
  Forall (fun d => 1 <= fst d <= length l
                   /\ snd d = VDict [("cpu", nth (fst d - 1) l VNone)]) ds ->
  Forall (fun d => 1 <= fst d <= length (l ++ l')
                   /\ snd d = VDict [("cpu", nth (fst d - 1) (l ++ l') VNone)]) ds.
Proof.
  apply Forall_impl. intros d [Hb He]. rewrite length_app.
  split; [lia |]. rewrite app_nth1 by lia. exact He.
Qed.

Lemma reachable_init : reachable_inv [] init.
Proof. constructor; simpl; try constructor; unfold maxlen; lia. Qed.

Lemma reachable_step (l : list value) (s : state) (e : event) :
  reachable_inv l s -> reachable_inv (l ++ appended [e]) (step s e).
Proof.
  intros H. pose proof H as [Ha Hb Hl Hs Hf He].
  destruct e as [r | |]; cbn [appended step]; rewrite ?app_nil_r.
  - constructor; cbn [cpu_buf appends delivered sending last_len].
    + rewrite length_app. cbn [length]. lia.
    + unfold sampler_cycle. rewrite length_append by assumption. lia.
    + unfold sampler_cycle.
      rewrite peek_right_append by (assumption || (unfold maxlen; lia)).
      rewrite peek_right_snoc. reflexivity.
    + assumption.
    + left. revert He. apply Forall_impl. intros d [Hd _]. lia.
    + apply entries_mono. assumption.
  - destruct (sending s) eqn:Hsend; [exact H |].
    destruct (stream_changed (cpu_buf s) (last_len s)) eqn:Hc;
      [| exact H].
    apply andb_prop in Hc. destruct Hc as [Hdiff Hne].
    apply negb_true_iff in Hne. apply negb_true_iff in Hdiff.
    apply Nat.eqb_neq in Hdiff.
    destruct Hf as [Hf | [Hf | Hf]]; [| discriminate | congruence].
    destruct (peek_right_nonempty _ Hne) as [e Hpk].
    pose proof Hpk as Hpk'. rewrite Hl in Hpk'.
    apply peek_right_last in Hpk. apply peek_right_last in Hpk'.
    destruct Hpk as [Hlast _]. destruct Hpk' as [_ [Hnth Hlen]].
    constructor; cbn [cpu_buf appends delivered sending last_len];
      try assumption.
    + rewrite map_app. cbn [map fst]. apply sorted_snoc; [assumption |].
      rewrite Forall_map. exact Hf.
    + right. left. reflexivity.
    + apply Forall_app. split; [assumption |].
      constructor; [| constructor]. cbn [fst snd].
      rewrite Ha. split; [lia |].
      unfold stream_message. rewrite Hlast, Hnth. reflexivity.
  - destruct (sending s) eqn:Hsend; [| exact H].
    constructor; cbn [cpu_buf appends delivered sending last_len];
      try assumption.
    right. right. reflexivity.
Qed.

Lemma reachable_run (es : list event) :
  reachable_inv (appended es) (run init es).
Proof.
  induction es as [| e es IH] using rev_ind; [apply reachable_init |].
  rewrite run_snoc, appended_app. apply reachable_step. exact IH.
Qed.

Lemma sorted_lt_le (l : list nat) : StronglySorted lt l -> StronglySorted le l.
Proof.
  induction 1 as [| a l Hs IH Ha]; constructor; [assumption |].
  revert Ha. apply Forall_impl. intros b Hb. lia.
Qed.

Lemma sorted_nth {A : Type} (R : A -> A -> Prop) (l : list A) (d : A) :
  StronglySorted R l ->
  forall i j, i < j -> j < length l -> R (nth i l d) (nth j l d).
Proof.
  induction 1 as [| a l Hs IH Ha]; intros i j Hij Hj; [inversion Hj |].
  destruct j as [| j]; [lia |]. cbn [length] in Hj.
  destruct i as [| i]; cbn [nth].
  - rewrite Forall_forall in Ha. apply Ha. apply nth_In. lia.
  - apply IH; lia.
Qed.

Lemma sorted_pick {A : Type} (R : A -> A -> Prop) (l : list A) (d : A)
    (ks : list nat) :
  StronglySorted R l -> StronglySorted lt ks ->
  Forall (fun k => 1 <= k <= length l) ks ->
  StronglySorted R (map (fun k => nth (k - 1) l d) ks).
Proof.
  intros Hl. induction 1 as [| k ks Hs IH Hk]; intros Hb; cbn [map];
    constructor; inversion Hb as [| ? ? Hk1 Hb']; subst.
  - apply IH. assumption.
  - rewrite Forall_map. rewrite Forall_forall in Hk, Hb' |- *.
    intros k' Hk'. specialize (Hk k' Hk'). specialize (Hb' k' Hk').
    apply sorted_nth; [assumption | lia | lia].
Qed.

(** With a clock that does not step back between sampler cycles, the
    timestamps of the delivered entries do not step back either; the same
    goes for any order in which the entries were appended. *)
Lemma deliveries_keep_order (R : value -> value -> Prop) (es : list event) :
  StronglySorted R (appended es) ->
  exists entries,
    map snd (delivered (run init es))
    = map (fun e => VDict [("cpu", e)]) entries
    /\ StronglySorted R entries.
Proof.
  intros HR. destruct (reachable_run es) as [_ _ _ Hs _ He].
  exists (map (fun k => nth (k - 1) (appended es) VNone)
            (map fst (delivered (run init es)))).
  split.
  - rewrite !map_map. apply map_ext_in. intros d Hd.
    rewrite Forall_forall in He. apply He. exact Hd.
  - apply sorted_pick; [assumption | assumption |].
    rewrite Forall_map. revert He. apply Forall_impl. tauto.
Qed.

(** C7 (as amended). Whatever the interleaving of sampler cycles, poll
    ticks and send completions, one subscriber's deliveries follow the
    append order: the append numbers of the delivered entries never decrease
    (they increase: no entry is sent twice), and each delivered message
    carries the entry appended under its number. Their timestamps follow
    only as far as the sampler's clock does: when the timestamps of the
    appended entries do not step back, those of the delivered entries do
    not step back either. *)
Theorem deliveries_follow_append_order (es : list event) :
  let ds := delivered (run init es) in
  StronglySorted le (map fst ds)
  /\ StronglySorted lt (map fst ds)
  /\ Forall (fun d => 1 <= fst d <= length (appended es)
                      /\ snd d = VDict [("cpu", nth (fst d - 1) (appended es) VNone)])
            ds
  /\ (StronglySorted not_later (appended es) ->
      exists entries,
        map snd ds = map (fun e => VDict [("cpu", e)]) entries
        /\ StronglySorted not_later entries).
Proof.
  destruct (reachable_run es) as [_ _ _ Hs _ He].
  split; [apply sorted_lt_le; assumption |].
  split; [assumption |]. split; [assumption |].
  apply deliveries_keep_order.
Qed.

(** Three cycles stamped 1, 2 and 3, each followed by a poll tick. *)
Lemma deliveries_follow_append_order_witness :
  let es := cycles_with_ticks 1 3 in
  StronglySorted not_later (appended es)
  /\ exists entries,
       map snd (delivered (run init es))
       = map (fun e => VDict [("cpu", e)]) entries
       /\ StronglySorted not_later entries.
Proof.
  cbv zeta.
  refine ((fun Hclock => conj Hclock _) _).
  - exact (proj2 (proj2 (proj2
             (deliveries_follow_append_order (cycles_with_ticks 1 3)))) Hclock).
  - vm_compute. repeat constructor.
Defined.

(** C7 (as stated) fails: the sampler stamps an entry with [time.time()],
    the wall clock, which can be set back between two cycles. A subscriber
    that polls after each of two cycles, the first stamped 5 and the second
    stamped 3, is sent the entry stamped 5 and then the entry stamped 3. *)
Lemma clock_set_back_delivered :
  let first := {| now := FNum 5; total := FNum 0; per_core := [FNum 0] |} in
  let second := {| now := FNum 3; total := FNum 0; per_core := [FNum 0] |} in
  let es := Sample first :: tick ++ Sample second :: tick in
  map snd (delivered (run init es))
  = [VDict [("cpu", cpu_entry first)]; VDict [("cpu", cpu_entry second)]]
  /\ timestamp (cpu_entry first) = Some (FNum 5)
  /\ timestamp (cpu_entry second) = Some (FNum 3)
  /\ ~ not_later (cpu_entry first) (cpu_entry second).
Proof.
  cbv zeta. split; [vm_compute; reflexivity |].
  split; [reflexivity |]. split; [reflexivity |].
  intros Hle. vm_compute in Hle. discriminate Hle.
Qed.

(** With sampler timestamps that do not step back from one cycle to the
    next, the entries a subscriber is sent come with timestamps that do not
    step back. *)
Lemma deliveries_follow_timestamps (es : list event) :
  StronglySorted not_later (appended es) ->
  exists entries,
    map snd (delivered (run init es))
    = map (fun e => VDict [("cpu", e)]) entries
    /\ StronglySorted not_later entries.
Proof. apply deliveries_keep_order. Qed.

(** Below capacity the length test works: a subscriber that has recorded the
    current length sees the next append at its next poll. *)
Lemma poll_delivers_below_capacity (s : state) (r : Reading) :
  sending s = false -> last_len s = length (cpu_buf s) ->
  length (cpu_buf s) < maxlen ->
  delivered (run s [Sample r; Poll])
  = delivered s ++ [(S (appends s), VDict [("cpu", cpu_entry r)])].
Proof.
  intros Hs Hl Hb. cbn [run fold_left step cpu_buf appends last_len sending delivered].
  rewrite Hs. unfold stream_changed, stream_message.
  rewrite marker_grows_below_capacity by assumption.
  rewrite Hl.
  replace (S (length (cpu_buf s)) =? length (cpu_buf s)) with false
    by (symmetry; apply Nat.eqb_neq; lia).
  cbn [negb andb Nat.eqb delivered appends cpu_buf].
  unfold sampler_cycle. rewrite append_below by assumption.
  rewrite last_last. reflexivity.
Qed.

Lemma stalled_step (s : state) (e : event) :
  stalled s -> stalled (step s e) /\ delivered (step s e) = delivered s.
Proof.
  intros H. pose proof H as [Hfull Hsub].
  destruct e as [r | |]; cbn [step].
  - split; [| reflexivity]. split; cbn [cpu_buf sending last_len].
    + apply marker_constant_at_capacity. assumption.
    + assumption.
  - destruct (sending s) eqn:Hs; [split; [exact H | reflexivity] |].
    destruct Hsub as [Hsub | Hsub]; [discriminate |].
    unfold stream_changed. rewrite Hfull, Hsub, Nat.eqb_refl.
    cbn [negb andb]. split; [exact H | reflexivity].
  - destruct (sending s) eqn:Hs; [| split; [exact H | reflexivity]].
    split; [| reflexivity]. split; cbn [cpu_buf sending last_len].
    + assumption.
    + right. assumption.
Qed.

(** Once stalled, the subscriber is never sent anything again, whatever the
    sampler appends. *)
Lemma stalled_forever (es : list event) (s : state) :
  stalled s -> delivered (run s es) = delivered s.
Proof.
  revert s. induction es as [| e es IH]; intros s H; [reflexivity |].
  destruct (stalled_step s e H) as [H' Hd].
  change (run s (e :: es)) with (run (step s e) es).
  rewrite IH by assumption. exact Hd.
Qed.

(** C1. A subscriber that kept up with the first 900 cycles has been sent
    every one of them. The 901st cycle puts a new latest entry in the full
    buffer, the next poll tick sends nothing, and nothing is sent in any
    continuation of the run. *)
Theorem stream_stalls_at_capacity :
  let s := run init (cycles_with_ticks 1 900) in
  let s' := run s (Sample (reading 901) :: tick) in
  map fst (delivered s) = seq 1 900
  /\ last (delivered s) (0, VNone) = (900, VDict [("cpu", cpu_entry (reading 900))])
  /\ Deque.peek_right (cpu_buf s') = Some (cpu_entry (reading 901))
  /\ delivered s' = delivered s
  /\ forall es, delivered (run s' es) = delivered s.
Proof.
  cbv zeta.
  assert (Hst : stalled (run init (cycles_with_ticks 1 900))).
  { split; [| right]; vm_compute; reflexivity. }
  split; [vm_compute; reflexivity |].
  split; [vm_compute; reflexivity |].
  split; [vm_compute; reflexivity |].
  split.
  - apply stalled_forever. exact Hst.
  - intros es. rewrite <- run_app. apply stalled_forever. exact Hst.
Qed.

(** ** Validation *)

Import Pydantic SystemHealth Contract Examples.

(** A model is built from the dict [as_dict] makes of the value, each field
    looking up its own name. *)
Lemma validate_fields {py : Builtins} (cls : string) (fs : list field) (v : value) :
  validate (TModel cls fs) v
  = match as_dict v with
    | Some kvs => forallb (fun f => validate_field f (dict_get (fname f) kvs)) fs
    | None => false
    end.
Proof.
  cbn [validate]. destruct (as_dict v) as [kvs |]; [| reflexivity].
  induction fs as [| f fs IH]; [reflexivity |].
  cbn [forallb]. rewrite <- IH. reflexivity.
Qed.

Lemma validate_model {py : Builtins} (cls : string) (fs : list field)
    (kvs : list (string * value)) :
  validate (TModel cls fs) (VDict kvs)
  = forallb (fun f => validate_field f (dict_get (fname f) kvs)) fs.
Proof. rewrite validate_fields. reflexivity. Qed.

Lemma validate_optional {py : Builtins} (t : ty) (v : value) :
  validate (TOptional t) v
  = match v with VNone => true | _ => validate t v end.
Proof. destruct v; reflexivity. Qed.

(** A model rejects a dict as soon as one of its fields rejects what the
    dict holds, or misses, under the field's name. *)
Lemma model_rejects {py : Builtins} (cls : string) (fs : list field)
    (kvs : list (string * value)) (f : field) :
  In f fs -> validate_field f (dict_get (fname f) kvs) = false ->
  validate (TModel cls fs) (VDict kvs) = false.
Proof.
  intros Hin Hf. rewrite validate_model.
  apply not_true_is_false. intros H.
  rewrite forallb_forall in H. rewrite (H f Hin) in Hf. discriminate.
Qed.

Lemma dict_get_update (k k' : string) (g : value -> value)
    (kvs : list (string * value)) :
  dict_get k' (dict_update k g kvs)
  = if String.eqb k k' then option_map g (dict_get k' kvs) else dict_get k' kvs.
Proof.
  induction kvs as [| [k0 v0] kvs IH]; cbn [dict_update map dict_get fst snd].
  - destruct (String.eqb k k'); reflexivity.
  - fold (dict_update k g kvs).
    destruct (String.eqb_spec k k0) as [-> | Hk0]; cbn [dict_get].
    + destruct (String.eqb_spec k' k0) as [-> | Hk'].
      * rewrite String.eqb_refl. reflexivity.
      * rewrite IH. reflexivity.
    + destruct (String.eqb_spec k' k0) as [-> | Hk'].
      * destruct (String.eqb_spec k k0); [contradiction | reflexivity].
      * rewrite IH. reflexivity.
Qed.

Lemma key_on_key (k k' : string) (g : value -> value) (v : value) :
  key k' (on_key k g v)
  = if String.eqb k k' then option_map g (key k' v) else key k' v.
Proof.
  destruct v; cbn [on_key key]; try (destruct (String.eqb k k'); reflexivity).
  apply dict_get_update.
Qed.

(** Validation of a model factors through one of its fields: if the field
    named [k] accepts [v] exactly when [X v] holds and it accepts [g v], then
    the model accepts a value exactly when [X] holds of what the value has
    under [k] and the model accepts the value with [g] applied under [k]. *)
Lemma model_split {py : Builtins} (cls : string) (fs : list field) (k : string)
    (g : value -> value) (X : value -> bool) :
  (exists f, In f fs /\ fname f = k) ->
  (forall f, In f fs -> fname f = k ->
     forall v, validate_field f (Some v) = X v && validate_field f (Some (g v))) ->
  forall v,
    validate (TModel cls fs) v
    = forallb X (present (key k v)) && validate (TModel cls fs) (on_key k g v).
Proof.
  intros [f0 [Hin0 Hk0]] Hsplit v.
  destruct v as [| | | | | | | | kvs];
    try (cbn [on_key key present forallb]; reflexivity).
  cbn [on_key key]. rewrite !validate_model.
  apply eq_true_iff_eq. rewrite andb_true_iff, !forallb_forall. split.
  - intros H. split.
    + intros x Hx. pose proof (H f0 Hin0) as Hf0. rewrite Hk0 in Hf0.
      destruct (dict_get k kvs) as [v |]; cbn [present In] in Hx; [| contradiction].
      destruct Hx as [<- | []].
      rewrite (Hsplit f0 Hin0 Hk0) in Hf0. apply andb_prop in Hf0. tauto.
    + intros f Hin. rewrite dict_get_update. pose proof (H f Hin) as Hf.
      destruct (String.eqb_spec k (fname f)) as [E | E]; [| exact Hf].
      destruct (dict_get (fname f) kvs) as [v |]; cbn [option_map]; [| exact Hf].
      rewrite (Hsplit f Hin (eq_sym E)) in Hf. apply andb_prop in Hf. tauto.
  - intros [HX H] f Hin. specialize (H f Hin). rewrite dict_get_update in H.
    destruct (String.eqb_spec k (fname f)) as [E | E]; [| exact H].
    destruct (dict_get (fname f) kvs) as [v |] eqn:Hget; cbn [option_map] in H;
      [| exact H].
    rewrite (Hsplit f Hin (eq_sym E)). rewrite H, andb_true_r.
    apply HX. rewrite E, Hget. left. reflexivity.
Qed.

(** The same for a list field: each item is split on its own. *)
Lemma items_split {py : Builtins} (t : ty) (g : value -> value)
    (P : value -> list value) :
  (forall v, validate t v = forallb pct_ok (P v) && validate t (g v)) ->
  forall v,
    validate (TOptional (TList t)) v
    = forallb pct_ok (flat_map P (items (Some v)))
      && validate (TOptional (TList t)) (on_items g v).
Proof.
  intros Hsplit v. destruct v as [| | | | | | vs | |]; try reflexivity.
  cbn [items on_items validate sequence].
  induction vs as [| a vs IH]; [reflexivity |].
  cbn [forallb flat_map map]. rewrite forallb_app, IH, (Hsplit a).
  destruct (forallb pct_ok (P a)), (validate t (g a)),
    (forallb pct_ok (flat_map P vs)); reflexivity.
Qed.

(** *** Percentages of the CPU panel *)

(** [float] takes every int up to the bounds of the models and beyond. *)
Lemma float_range : (100 < 2 ^ 1024 - 2 ^ 970)%Z.
Proof. vm_compute. reflexivity. Qed.

Lemma float_of_int_fits (n : Z) :
  (Z.abs n < 2 ^ 1024 - 2 ^ 970)%Z -> float_of_int n = Some (FNum (inject_Z n)).
Proof.
  intros Hn. unfold float_of_int. apply Z.ltb_lt in Hn. rewrite Hn. reflexivity.
Qed.

Lemma float_of_int_cases (n : Z) :
  float_of_int n = Some (FNum (inject_Z n)) \/ float_of_int n = None.
Proof.
  unfold float_of_int.
  destruct (Z.abs n <? 2 ^ 1024 - 2 ^ 970)%Z; [left | right]; reflexivity.
Qed.

(** A bound sees the same thing in an int and in the float made of it. *)
Lemma check_float_of_int (c : constraint) (n : Z) :
  check c (VFloat (FNum (inject_Z n))) = check c (VInt n).
Proof.
  destruct c as [b | b]; cbn [check fle]; unfold Qle_bool, inject_Z;
    cbn [Qnum Qden]; rewrite !Z.mul_1_r; reflexivity.
Qed.

Lemma checks_float_of_int (cs : list constraint) (n : Z) :
  checks cs (VFloat (FNum (inject_Z n))) = checks cs (VInt n).
Proof.
  unfold checks. induction cs as [| c cs IH]; [reflexivity |].
  cbn [forallb]. rewrite IH, check_float_of_int. reflexivity.
Qed.

(** What a percentage field makes of an int: the bounds are checked on the
    int itself, provided [float] takes it. *)
Lemma pct_ok_int {py : Builtins} (n : Z) :
  pct_ok (VInt n)
  = match float_of_int n with
    | Some _ => checks [Ge 0; Le 100] (VInt n)
    | None => false
    end.
Proof.
  unfold pct_ok. cbn [validate converted as_float].
  destruct (float_of_int_cases n) as [E | E]; rewrite E; [| reflexivity].
  cbn [andb]. apply checks_float_of_int.
Qed.

Lemma pct_inside_accepted {py : Builtins} (v : value) : pct_inside v -> pct_ok v = true.
Proof.
  destruct v as [| | n | [q | neg |] | | | | |]; cbn [pct_inside];
    try contradiction.
  - intros Hn. rewrite pct_ok_int, float_of_int_fits
      by (pose proof float_range; lia).
    unfold checks. cbn [forallb check].
    rewrite andb_true_r, andb_true_iff, !Z.leb_le. exact Hn.
  - intros Hq. unfold pct_ok, checks.
    cbn [validate converted as_float forallb check andb fle].
    rewrite andb_true_r, andb_true_iff, !Qle_bool_iff. exact Hq.
Qed.

Lemma pct_outside_rejected {py : Builtins} (v : value) :
  pct_outside v -> pct_ok v = false.
Proof.
  destruct v as [| | n | [q | neg |] | | | | |]; cbn [pct_outside];
    try contradiction.
  - intros Hn. rewrite pct_ok_int.
    destruct (float_of_int n); [| reflexivity].
    unfold checks. cbn [forallb check]. rewrite andb_true_r.
    apply andb_false_iff. destruct Hn as [Hn | Hn]; [left | right];
      apply Z.leb_gt; exact Hn.
  - intros Hq. unfold pct_ok, checks.
    cbn [validate converted as_float forallb check andb fle].
    rewrite andb_true_r. apply not_true_is_false.
    rewrite andb_true_iff, !Qle_bool_iff. intros [H0 H100].
    destruct Hq as [Hq | Hq].
    + exact (Qlt_not_le _ _ Hq H0).
    + exact (Qlt_not_le _ _ Hq H100).
  - intros _. destruct neg; reflexivity.
  - intros _. reflexivity.
Qed.

Lemma pct_field_split {py : Builtins} (n : string) (p : presence) (v : value) :
  validate_field (Fld n TFloat p [Ge 0; Le 100]) (Some v)
  = pct_ok v && validate_field (Fld n TFloat p [Ge 0; Le 100]) (Some (zero v)).
Proof.
  unfold pct_ok, zero. cbn [validate_field].
  replace (validate TFloat (VInt 0)
           && checks [Ge 0; Le 100] (converted TFloat (VInt 0)))
    with true by (vm_compute; reflexivity).
  rewrite andb_true_r. reflexivity.
Qed.

Lemma list_field_split {py : Builtins} (n : string) (p : presence) (t : ty)
    (g : value -> value) (P : value -> list value) :
  (forall v, validate t v = forallb pct_ok (P v) && validate t (g v)) ->
  forall v,
    validate_field (Fld n (TOptional (TList t)) p []) (Some v)
    = forallb pct_ok (flat_map P (items (Some v)))
      && validate_field (Fld n (TOptional (TList t)) p []) (Some (on_items g v)).
Proof.
  intros Hs v. cbn [validate_field checks forallb]. rewrite !andb_true_r.
  apply items_split. exact Hs.
Qed.

Lemma forallb_present_items {py : Builtins} (P : value -> list value)
    (ov : option value) :
  forallb (fun x => forallb pct_ok (flat_map P (items (Some x)))) (present ov)
  = forallb pct_ok (flat_map P (items ov)).
Proof.
  destruct ov as [x |]; cbn [present forallb]; [apply andb_true_r | reflexivity].
Qed.

(** Walks through the fields of a model and keeps the one with the given
    name. *)
Ltac pick_field Hin Hk :=
  cbn [In] in Hin;
  repeat (destruct Hin as [<- | Hin];
          [cbn [fname] in Hk; try discriminate Hk |]);
  try contradiction.

Lemma core_split {py : Builtins} (v : value) :
  validate CPUCoreUsage v
  = forallb pct_ok (present (key "usage_pct" v))
    && validate CPUCoreUsage (on_key "usage_pct" zero v).
Proof.
  unfold CPUCoreUsage. apply model_split.
  - eexists. split; [right; left; reflexivity | reflexivity].
  - intros f Hin Hk. pick_field Hin Hk. apply pct_field_split.
Qed.

Lemma process_split {py : Builtins} (v : value) :
  validate TopCPUProcess v
  = forallb pct_ok (present (key "cpu_pct" v))
    && validate TopCPUProcess (on_key "cpu_pct" zero v).
Proof.
  unfold TopCPUProcess. apply model_split.
  - eexists. split; [do 2 right; left; reflexivity | reflexivity].
  - intros f Hin Hk. pick_field Hin Hk. apply pct_field_split.
Qed.

Lemma cpu_split_processes {py : Builtins} (v : value) :
  validate CPUModel v
  = forallb pct_ok (flat_map (fun proc => present (key "cpu_pct" proc))
                      (items (key "top_processes" v)))
    && validate CPUModel
         (on_key "top_processes" (on_items (on_key "cpu_pct" zero)) v).
Proof.
  rewrite <- forallb_present_items. unfold CPUModel. apply model_split.
  - eexists. split; [do 13 right; left; reflexivity | reflexivity].
  - intros f Hin Hk. pick_field Hin Hk.
    apply list_field_split. exact process_split.
Qed.

Lemma cpu_split_cores {py : Builtins} (v : value) :
  validate CPUModel v
  = forallb pct_ok (flat_map (fun core => present (key "usage_pct" core))
                      (items (key "per_core" v)))
    && validate CPUModel
         (on_key "per_core" (on_items (on_key "usage_pct" zero)) v).
Proof.
  rewrite <- forallb_present_items. unfold CPUModel. apply model_split.
  - eexists. split; [do 5 right; left; reflexivity | reflexivity].
  - intros f Hin Hk. pick_field Hin Hk.
    apply list_field_split. exact core_split.
Qed.

Lemma cpu_split_total {py : Builtins} (v : value) :
  validate CPUModel v
  = forallb pct_ok (present (key "usage_total_pct" v))
    && validate CPUModel (on_key "usage_total_pct" zero v).
Proof.
  unfold CPUModel. apply model_split.
  - eexists. split; [do 4 right; left; reflexivity | reflexivity].
  - intros f Hin Hk. pick_field Hin Hk. apply pct_field_split.
Qed.

(** The CPU panel is accepted exactly when its percentages pass and the
    panel with the percentages put aside is accepted. *)
Lemma cpu_split {py : Builtins} (v : value) :
  validate CPUModel v
  = forallb pct_ok (cpu_panel_percentages v) && validate CPUModel (erase_cpu_panel v).
Proof.
  unfold cpu_panel_percentages, erase_cpu_panel.
  rewrite !forallb_app.
  rewrite (cpu_split_processes v).
  rewrite (cpu_split_cores (on_key "top_processes" _ v)).
  rewrite (cpu_split_total (on_key "per_core" _ _)).
  rewrite !key_on_key. cbn [String.eqb Ascii.eqb Bool.eqb].
  set (a := forallb pct_ok (present (key "usage_total_pct" v))).
  set (b := forallb pct_ok (flat_map _ (items (key "per_core" v)))).
  set (c := forallb pct_ok (flat_map _ (items (key "top_processes" v)))).
  destruct a, b, c; reflexivity.
Qed.

Lemma cpu_field_split {py : Builtins} (v : value) :
  validate_field (Fld "cpu" (TOptional CPUModel) (Default VNone) []) (Some v)
  = forallb pct_ok (cpu_panel_percentages v)
    && validate_field (Fld "cpu" (TOptional CPUModel) (Default VNone) [])
         (Some (erase_cpu_panel v)).
Proof.
  cbn [validate_field checks forallb]. rewrite !andb_true_r.
  destruct v as [| | | | | | | | kvs]; try reflexivity.
  rewrite !validate_optional. cbn [erase_cpu_panel on_key]. apply cpu_split.
Qed.

(** A candidate snapshot is accepted exactly when the percentages of its CPU
    panel pass and the candidate with these percentages put aside is
    accepted. *)
Lemma snapshot_split {py : Builtins} (c : value) :
  validate SystemHealthSnapShot c
  = forallb pct_ok (cpu_percentages c)
    && validate SystemHealthSnapShot (erase_cpu_percentages c).
Proof.
  unfold cpu_percentages, erase_cpu_percentages.
  replace (forallb pct_ok match key "cpu" c with
                          | Some cpu => cpu_panel_percentages cpu
                          | None => []
                          end)
    with (forallb (fun v => forallb pct_ok (cpu_panel_percentages v))
            (present (key "cpu" c)))
    by (destruct (key "cpu" c); cbn [present forallb];
        [apply andb_true_r | reflexivity]).
  unfold SystemHealthSnapShot, panels. apply model_split.
  - eexists. split; [do 3 right; left; reflexivity | reflexivity].
  - intros f Hin Hk. pick_field Hin Hk. apply cpu_field_split.
Qed.

(** C5. A candidate whose CPU panel has a percentage outside [0, 100] is
    rejected, whatever else it holds. When nothing but CPU percentages is
    wrong with it, every candidate that differs from it at most in these
    percentages and has them all inside [0, 100] is accepted. NaN and the
    infinities count as outside. *)
Theorem cpu_percentage_validation {py : Builtins} (bad : value) :
  Exists pct_outside (cpu_percentages bad) ->
  validate SystemHealthSnapShot bad = false
  /\ forall good,
       otherwise_identical bad good ->
       other_constraints_hold bad ->
       Forall pct_inside (cpu_percentages good) ->
       validate SystemHealthSnapShot good = true.
Proof.
  intros Hout. split.
  - rewrite snapshot_split. apply andb_false_iff. left.
    apply not_true_is_false. rewrite forallb_forall. intros Hall.
    apply Exists_exists in Hout. destruct Hout as [v [Hv Ho]].
    apply pct_outside_rejected in Ho. rewrite (Hall v Hv) in Ho. discriminate.
  - intros good Hsame Hrest Hin.
    rewrite snapshot_split. apply andb_true_iff. split.
    + rewrite forallb_forall. intros v Hv. apply pct_inside_accepted.
      rewrite Forall_forall in Hin. apply Hin. exact Hv.
    + rewrite <- Hsame. exact Hrest.
Qed.

(** The spec's example: [usage_total_pct = 101] against the same candidate
    with [usage_total_pct = 42.5]; one core and one process are listed. *)
Lemma cpu_percentage_validation_witness :
  let panel (pct : Q) :=
    VDict [("usage_total_pct", VFloat (FNum pct));
           ("per_core", VList [VDict [("core_index", VInt 0);
                                      ("usage_pct", VFloat (FNum 12))]]);
           ("top_processes", VList [VDict [("pid", VInt 1);
                                           ("name", VStr "init");
                                           ("cpu_pct", VInt 3)]])] in
  let candidate (pct : Q) :=
    VDict [("host", VDict [("hostname", VStr "node-1")]); ("cpu", panel pct)] in
  validate SystemHealthSnapShot (candidate 101%Q) = false
  /\ validate SystemHealthSnapShot (candidate (85 # 2)%Q) = true.
Proof.
  cbv zeta.
  refine (match cpu_percentage_validation _ _ with
          | conj Hbad Hgood => conj Hbad (Hgood _ _ _ _)
          end).
  - apply Exists_cons_hd. right. reflexivity.
  - reflexivity.
  - vm_compute. reflexivity.
  - repeat constructor; cbn; discriminate.
Defined.

(** *** Required fields and optional panels *)













(** *** Entries of the buffer *)

Lemma entry_not_conforming {py : Builtins} (r : Reading) :
  validate SystemHealthSnapShot (cpu_entry r) = false
  /\ validate CPUModel (cpu_entry r) = false.
Proof.
  split.
  - unfold SystemHealthSnapShot, cpu_entry.
    apply model_rejects with (f := Fld "host" HostInfo Required []);
      [do 2 right; left; reflexivity | reflexivity].
  - unfold CPUModel, cpu_entry.
    apply model_rejects
      with (f := Fld "usage_total_pct" TFloat Required [Ge 0; Le 100]);
      [do 4 right; left; reflexivity | reflexivity].
Qed.

Lemma In_lastn {A : Type} (n : nat) (l : list A) (x : A) :
  In x (Deque.lastn n l) -> In x l.
Proof.
  unfold Deque.lastn. intros H.
  rewrite <- (firstn_skipn (length l - n) l). apply in_or_app. right. exact H.
Qed.

(** C9 (as amended). Each sampler cycle appends the dict it has just built,
    whatever it holds: after the cycle this dict is the latest entry. Every
    entry of the buffer is such a dict, and none of them passes validation
    against the snapshot model or the CPU model. *)
Theorem sampler_appends_unvalidated {py : Builtins} (rs : list Reading)
    (r : Reading) :
  sampler_run (rs ++ [r]) = Deque.append 900 (sampler_run rs) (cpu_entry r)
  /\ Deque.peek_right (sampler_run (rs ++ [r])) = Some (cpu_entry r)
  /\ Forall (fun e => (exists r', In r' rs /\ e = cpu_entry r')
                      /\ validate SystemHealthSnapShot e = false
                      /\ validate CPUModel e = false)
            (sampler_run rs).
Proof.
  split; [apply sampler_run_snoc |]. split.
  - rewrite sampler_run_snoc. unfold sampler_cycle.
    apply peek_right_append; [unfold maxlen; lia |].
    rewrite length_sampler_run. lia.
  - apply Forall_forall. intros e He.
    rewrite sampler_run_lastn in He. apply In_lastn in He.
    apply in_map_iff in He. destruct He as [r' [<- Hr']].
    split; [exists r'; split; [assumption | reflexivity] |].
    apply entry_not_conforming.
Qed.

(** C9 (as stated) fails: the entry of an ordinary cycle is retained
    although it passes validation neither as a snapshot nor as a CPU panel,
    and so is the entry of a cycle that read a total of 250 percent. *)
Lemma unvalidated_entry_retained :
  let hot := {| now := FNum 2; total := FNum 250; per_core := [FNum 250] |} in
  sampler_run [reading 1; hot] = [cpu_entry (reading 1); cpu_entry hot]
  /\ ~ conforms (cpu_entry (reading 1))
  /\ ~ conforms (cpu_entry hot).
Proof.
  cbv zeta. split; [reflexivity |].
  split; intros [H | H]; vm_compute in H; discriminate H.
Qed.

(** *** Categorical fields *)

(** A field declared as an enumeration, without bounds, accepts a string
    exactly when the string is one of the declared members. *)
Lemma enumeration_closed {py : Builtins} (f : field) (s : string) :
  is_enumerated f = true -> fconstraints f = [] ->
  accepts f (VStr s) = existsb (String.eqb s) (members f).
Proof.
  destruct f as [n t p cs]. unfold is_enumerated, members, enumeration, accepts.
  cbn [ftype fconstraints]. intros Ht ->.
  destruct t as [| | | | | ms | t' | | | |]; try discriminate Ht.
  - cbn. apply andb_true_r.
  - destruct t' as [| | | | | ms | | | | |]; try discriminate Ht.
    cbn. apply andb_true_r.
Qed.

Lemma enumerated_unbounded :
  Forall (fun cf => fconstraints (snd cf) = []) enumerated_fields.
Proof. vm_compute. repeat constructor. Qed.

Lemma state_strings_declared :
  Forall (fun cf => In cf (fields_of SystemHealthSnapShot)) state_strings.
Proof.
  unfold state_strings.
  apply Forall_cons; [| apply Forall_cons; [| apply Forall_cons; [| apply Forall_nil]]].
  - apply (nth_error_In _ 143). vm_compute. reflexivity.
  - apply (nth_error_In _ 266). vm_compute. reflexivity.
  - apply (nth_error_In _ 273). vm_compute. reflexivity.
Qed.

(** C8 (as amended). Every field declared as an enumeration is closed: the
    strings it accepts are its declared members. Eleven of these fields
    have an [unknown] or [other] member; the severities, the alert scope
    and the memory pressure state have none. The throttle reason, the
    memory pressure state and the duplex setting accept a null. The socket
    status and the container and VM states are declared as optional strings:
    they accept a null and any string. *)
Theorem categorical_fields_as_declared {py : Builtins} :
  Forall (fun cf => forall s,
            accepts (snd cf) (VStr s) = existsb (String.eqb s) (members (snd cf)))
         enumerated_fields
  /\ names (filter (fun cf => has_fallback (snd cf)) enumerated_fields)
     = [("HostInfo", "os"); ("CPUThrottleStatus", "reason");
        ("DiskPartition", "fs_type"); ("NetworkInterface", "type");
        ("NetworkInterface", "duplex"); ("ConnectionStat", "protocol");
        ("ServiceStatus", "state"); ("CrashRecord", "type");
        ("SecurityModel", "firewall"); ("SecurityModel", "av");
        ("EndpointHealth", "status")]
  /\ names (filter (fun cf => negb (has_fallback (snd cf))) enumerated_fields)
     = [("PressureStatus", "instant"); ("LogEvent", "severity");
        ("SecurityFinding", "severity"); ("Alert", "scope");
        ("Alert", "severity")]
  /\ names (filter (fun cf => admits_null (snd cf)) enumerated_fields)
     = [("CPUThrottleStatus", "reason"); ("PressureStatus", "instant");
        ("NetworkInterface", "duplex")]
  /\ Forall (fun cf => In cf (fields_of SystemHealthSnapShot)
                       /\ is_enumerated (snd cf) = false
                       /\ admits_null (snd cf) = true
                       /\ forall s, accepts (snd cf) (VStr s) = true)
            state_strings.
Proof.
  split; [| split; [| split; [| split]]].
  - pose proof enumerated_unbounded as Hu.
    rewrite Forall_forall in Hu |- *. intros cf Hcf s.
    apply enumeration_closed; [| apply Hu; exact Hcf].
    unfold enumerated_fields in Hcf. apply filter_In in Hcf. tauto.
  - vm_compute. reflexivity.
  - vm_compute. reflexivity.
  - vm_compute. reflexivity.
  - pose proof state_strings_declared as Hd.
    rewrite Forall_forall in Hd |- *. intros cf Hcf.
    split; [apply Hd; exact Hcf |].
    cbn [state_strings In] in Hcf.
    repeat (destruct Hcf as [<- | Hcf];
            [repeat split; intros; reflexivity |]).
    contradiction.
Qed.

(** C8 (as stated) fails: the severity of a log event is a categorical
    field without an [unknown] or [other] member, the memory pressure state
    is one that accepts a null, and the socket status is one that accepts
    any string. *)
Lemma categorical_fields_not_uniform :
  let severity := Fld "severity" Severity Required [] in
  let instant :=
    Fld "instant" (TOptional (TLiteral ["normal"; "elevated"; "critical"]))
      (Default VNone) [] in
  let status := Fld "status" (TOptional TStr) (Default VNone) [] in
  (In ("LogEvent", severity) categorical_fields
   /\ accepts severity (VStr "unknown") = false
   /\ accepts severity (VStr "other") = false)
  /\ (In ("PressureStatus", instant) categorical_fields
      /\ accepts instant VNone = true)
  /\ (In ("ConnectionStat", status) categorical_fields
      /\ accepts status (VStr "no such status") = true)
  /\ ~ (forall cf, In cf categorical_fields -> well_categorised (snd cf)).
Proof.
  cbv zeta.
  assert (Hsev : In ("LogEvent", Fld "severity" Severity Required [])
                    categorical_fields).
  { apply (nth_error_In _ 9). vm_compute. reflexivity. }
  split; [| split; [| split]].
  - split; [exact Hsev | split; reflexivity].
  - split; [| reflexivity].
    apply (nth_error_In _ 2). vm_compute. reflexivity.
  - split; [| reflexivity].
    apply (nth_error_In _ 18). vm_compute. reflexivity.
  - intros H. destruct (H _ Hsev) as [_ [Hf _]]. discriminate Hf.
Qed.

(** ** More on the stream *)

Import Fanout.

Lemma appended_readings (es : list event) :
  appended es = map cpu_entry (readings es).
Proof.
  induction es as [| e es IH]; [reflexivity |].
  destruct e; cbn [appended readings map]; rewrite IH; reflexivity.
Qed.

Lemma step_buffer (s : state) (e : event) :
  cpu_buf (step s e) = fold_left sampler_cycle (readings [e]) (cpu_buf s)
  /\ appends (step s e) = length (readings [e]) + appends s.
Proof.
  destruct e as [r | |]; cbn [step readings fold_left length].
  - split; reflexivity.
  - destruct (sending s); [split; reflexivity |].
    destruct (stream_changed (cpu_buf s) (last_len s)); split; reflexivity.
  - destruct (sending s); split; reflexivity.
Qed.

Lemma run_buffer (es : list event) (s : state) :
  cpu_buf (run s es) = fold_left sampler_cycle (readings es) (cpu_buf s)
  /\ appends (run s es) = length (readings es) + appends s.
Proof.
  revert s. induction es as [| e es IH]; intros s; [split; reflexivity |].
  change (run s (e :: es)) with (run (step s e) es).
  destruct (IH (step s e)) as [Hb Ha]. destruct (step_buffer s e) as [Hb' Ha'].
  rewrite Hb, Ha, Hb', Ha'.
  destruct e; cbn [readings fold_left length]; split; (reflexivity || lia).
Qed.

(** The stream only reads the buffer: whatever the subscriber does and
    whenever it does it, the buffer is the one the sampler cycles alone
    produce, and so is the answer of [GET /metrics/now]. *)
Theorem stream_leaves_buffer_alone (es : list event) :
  cpu_buf (run init es) = sampler_run (readings es)
  /\ appends (run init es) = length (readings es)
  /\ metrics_now (cpu_buf (run init es)) = metrics_now (sampler_run (readings es)).
Proof.
  destruct (run_buffer es init) as [Hb Ha]. cbn [init cpu_buf appends] in Hb, Ha.
  unfold sampler_run. rewrite Hb. repeat split. lia.
Qed.

Lemma sorted_range_length (n : nat) (ks : list nat) :
  StronglySorted lt ks ->
  forall m, Forall (fun k => m <= k <= n) ks -> length ks <= n + 1 - m.
Proof.
  induction 1 as [| a ks Hs IH Ha]; intros m Hb; cbn [length]; [lia |].
  inversion Hb as [| ? ? Hm Hb']; subst.
  assert (Hk : Forall (fun k => S a <= k <= n) ks).
  { rewrite Forall_forall in Ha, Hb' |- *. intros k Hin.
    specialize (Ha k Hin). specialize (Hb' k Hin). lia. }
  specialize (IH (S a) Hk). lia.
Qed.

(** The stream coalesces: a subscriber is sent at most as many messages as
    entries were appended, and none before the first append. *)
Theorem deliveries_bounded_by_appends (es : list event) :
  length (delivered (run init es)) <= length (readings es).
Proof.
  destruct (reachable_run es) as [_ _ _ Hs _ He].
  rewrite appended_readings, length_map in He.
  rewrite <- (length_map fst).
  pose proof (sorted_range_length (length (readings es)) _ Hs 1) as H.
  rewrite Forall_map in H.
  assert (Hb : Forall (fun d => 1 <= fst d <= length (readings es))
                 (delivered (run init es))).
  { revert He. apply Forall_impl. tauto. }
  specialize (H Hb). lia.
Qed.

(** Once the buffer is full a subscriber is sent at most one more message,
    whatever is appended afterwards; and none at all if it has recorded the
    full length or is about to. *)
Theorem full_buffer_one_more_message (s : state) (es : list event) :
  length (cpu_buf s) = maxlen ->
  length (delivered (run s es)) <= S (length (delivered s))
  /\ (sending s = true \/ last_len s = maxlen ->
      delivered (run s es) = delivered s).
Proof.
  intros Hfull. split.
  - revert s Hfull. induction es as [| e es IH]; intros s Hfull;
      [cbn; lia |].
    change (run s (e :: es)) with (run (step s e) es).
    destruct e as [r | |]; cbn [step].
    + specialize (IH (step s (Sample r))). cbn [step cpu_buf delivered] in IH.
      apply IH. apply marker_constant_at_capacity. exact Hfull.
    + destruct (sending s) eqn:Hs; [apply IH; exact Hfull |].
      destruct (stream_changed (cpu_buf s) (last_len s)); [| apply IH; exact Hfull].
      rewrite stalled_forever.
      * cbn [delivered]. rewrite length_app. cbn [length]. lia.
      * split; cbn [cpu_buf sending]; [exact Hfull | left; reflexivity].
    + destruct (sending s) eqn:Hs; [| apply IH; exact Hfull].
      rewrite stalled_forever.
      * cbn [delivered]. lia.
      * split; cbn [cpu_buf sending last_len]; [exact Hfull | right; exact Hfull].
  - intros Hsub. apply stalled_forever. split; assumption.
Qed.

Lemma full_buffer_one_more_message_witness :
  let s := run init (map Sample (map reading (seq 1 900))) in
  let es := tick ++ cycles_with_ticks 901 5 in
  length (cpu_buf s) = maxlen
  /\ length (delivered (run s es)) <= S (length (delivered s)).
Proof.
  cbv zeta. split; [vm_compute; reflexivity |].
  apply full_buffer_one_more_message. vm_compute. reflexivity.
Defined.

Lemma poll_delivers_below_capacity_witness :
  let s := run init (cycles_with_ticks 1 3) in
  delivered (run s [Sample (reading 4); Poll])
  = delivered s ++ [(4, VDict [("cpu", cpu_entry (reading 4))])].
Proof.
  cbv zeta.
  apply (poll_delivers_below_capacity (run init (cycles_with_ticks 1 3)));
    vm_compute; (reflexivity || lia).
Defined.

Lemma stream_unchanged (buf : list value) :
  stream_changed buf (length buf) = false.
Proof. unfold stream_changed. rewrite Nat.eqb_refl. reflexivity. Qed.

Lemma stream_changed_nonempty (buf : list value) (n : nat) :
  stream_changed buf n = true -> buf <> [].
Proof.
  intros H ->. unfold stream_changed in H. cbn [length Nat.eqb negb] in H.
  rewrite andb_false_r in H. discriminate H.
Qed.

(** An entry appended while a send is pending is passed over by the next
    poll: when the send returns, [last_len] takes the length that already
    counts this entry. *)
Theorem append_during_send_skipped (s : state) (r : Reading) :
  sending s = false ->
  stream_changed (cpu_buf s) (last_len s) = true ->
  let s' := run s [Poll; Sample r; SendDone; Poll] in
  delivered s' = delivered s ++ [(appends s, stream_message (cpu_buf s))]
  /\ Deque.peek_right (cpu_buf s') = Some (cpu_entry r)
  /\ last_len s' = length (cpu_buf s').
Proof.
  intros Hs Hc. cbv zeta. cbn [run fold_left].
  assert (E : step s Poll
              = {| cpu_buf := cpu_buf s; appends := appends s;
                   last_len := last_len s; sending := true;
                   delivered := delivered s
                                ++ [(appends s, stream_message (cpu_buf s))] |}).
  { cbn [step]. rewrite Hs, Hc. reflexivity. }
  rewrite E. cbn [step cpu_buf appends last_len sending delivered].
  rewrite stream_unchanged.
  cbn [cpu_buf appends last_len sending delivered].
  repeat split. unfold sampler_cycle, Deque.append. cbv zeta.
  destruct (maxlen <? length (cpu_buf s ++ [cpu_entry r])).
  - apply stream_changed_nonempty in Hc.
    destruct (cpu_buf s) as [| a l]; [contradiction |].
    cbn [app tl]. apply peek_right_snoc.
  - apply peek_right_snoc.
Qed.

Lemma append_during_send_skipped_witness :
  let s := run init [Sample (reading 1)] in
  let s' := run s [Poll; Sample (reading 2); SendDone; Poll] in
  delivered s' = [(1, VDict [("cpu", cpu_entry (reading 1))])]
  /\ Deque.peek_right (cpu_buf s') = Some (cpu_entry (reading 2))
  /\ last_len s' = length (cpu_buf s').
Proof.
  cbv zeta.
  apply (append_during_send_skipped (run init [Sample (reading 1)]) (reading 2));
    reflexivity.
Defined.

Lemma metrics_now_after_cycle (rs : list Reading) (r : Reading) :
  metrics_now (sampler_run (rs ++ [r])) = VDict [("cpu", cpu_entry r)].
Proof.
  rewrite sampler_run_snoc. unfold metrics_now, sampler_cycle.
  rewrite peek_right_append; [reflexivity | unfold maxlen; lia |].
  rewrite length_sampler_run. lia.
Qed.

Lemma prefix_ends_at (rs : list Reading) (k : nat) :
  1 <= k <= length rs ->
  exists l1 r l2, rs = l1 ++ r :: l2 /\ length l1 = k - 1
                  /\ firstn k rs = l1 ++ [r].
Proof.
  intros Hk. destruct (nth_error rs (k - 1)) as [r |] eqn:E.
  - apply nth_error_split in E. destruct E as [l1 [l2 [-> Hl]]].
    exists l1, r, l2. repeat split; [assumption |].
    rewrite firstn_app, firstn_all2 by lia.
    replace (k - length l1) with 1 by lia. reflexivity.
  - apply nth_error_None in E. lia.
Qed.

(** Each message a subscriber is sent is the answer [GET /metrics/now] gave
    right after the cycle whose entry the message carries. *)
Theorem deliveries_match_query (es : list event) :
  Forall (fun d => snd d
                   = metrics_now (sampler_run (firstn (fst d) (readings es))))
         (delivered (run init es)).
Proof.
  destruct (reachable_run es) as [_ _ _ _ _ He].
  rewrite appended_readings in He. revert He. apply Forall_impl.
  intros d [Hk Hd]. rewrite length_map in Hk.
  destruct (prefix_ends_at (readings es) (fst d) Hk) as [l1 [r [l2 [E [Hl Hf]]]]].
  rewrite Hf, metrics_now_after_cycle, Hd, E, map_app. cbn [map].
  rewrite <- Hl, <- (length_map cpu_entry l1), nth_middle. reflexivity.
Qed.

Lemma deliveries_follow_timestamps_witness :
  exists entries,
    map snd (delivered (run init (cycles_with_ticks 1 3)))
    = map (fun e => VDict [("cpu", e)]) entries
    /\ StronglySorted not_later entries.
Proof.
  apply deliveries_follow_timestamps.
  vm_compute. repeat constructor.
Defined.

(** *** Several subscribers *)

Lemma hub_run_snoc (h : hub) (es : list hub_event) (e : hub_event) :
  hub_run h (es ++ [e]) = hub_step (hub_run h es) e.
Proof. unfold hub_run. rewrite fold_left_app. reflexivity. Qed.

Lemma project_snoc (i : nat) (es : list hub_event) (e : hub_event) :
  project i (es ++ [e]) = project i es ++ view i e.
Proof. unfold project. rewrite flat_map_app. cbn. rewrite app_nil_r. reflexivity. Qed.

Lemma nth_error_update_same {A : Type} (g : A -> A) (l : list A) (i : nat) (x : A) :
  nth_error l i = Some x -> nth_error (update_nth i g l) i = Some (g x).
Proof.
  revert i. induction l as [| a l IH]; intros [| i];
    cbn [update_nth nth_error]; try discriminate.
  - intros [= ->]. reflexivity.
  - apply IH.
Qed.

Lemma nth_error_update_other {A : Type} (g : A -> A) (l : list A) (i j : nat) :
  j <> i -> nth_error (update_nth j g l) i = nth_error l i.
Proof.
  revert i j. induction l as [| a l IH]; intros i j H.
  - destruct j; reflexivity.
  - destruct i as [| i], j as [| j]; cbn [update_nth nth_error];
      try reflexivity; [contradiction | apply IH; lia].
Qed.

Lemma sub_poll_step (s : state) :
  sub_poll (cpu_buf s) (appends s) (subscriber_of s) = subscriber_of (step s Poll).
Proof.
  unfold sub_poll, subscriber_of. cbn [step sub_sending sub_last_len sub_delivered].
  destruct (sending s) eqn:Hs; [rewrite Hs; reflexivity |].
  destruct (stream_changed (cpu_buf s) (last_len s)); [reflexivity |].
  rewrite Hs. reflexivity.
Qed.

Lemma sub_send_done_step (s : state) :
  sub_send_done (cpu_buf s) (subscriber_of s) = subscriber_of (step s SendDone).
Proof.
  unfold sub_send_done, subscriber_of.
  cbn [step sub_sending sub_last_len sub_delivered].
  destruct (sending s) eqn:Hs; [reflexivity | rewrite Hs; reflexivity].
Qed.

Lemma poll_keeps_buffer (s : state) :
  cpu_buf (step s Poll) = cpu_buf s /\ appends (step s Poll) = appends s.
Proof. exact (step_buffer s Poll). Qed.

Lemma send_done_keeps_buffer (s : state) :
  cpu_buf (step s SendDone) = cpu_buf s
  /\ appends (step s SendDone) = appends s.
Proof. exact (step_buffer s SendDone). Qed.

(** Subscribers do not interfere: in a run of the sampler and any number of
    subscribers, what one subscriber is sent, and the buffer it reads, are
    what it would get alone with the sampler, given the same cycles and its
    own polls in the same order. *)
Theorem subscribers_independent (n i : nat) (es : list hub_event) :
  i < n ->
  let h := hub_run (hub_init n) es in
  let s := run init (project i es) in
  nth_error (hub_subs h) i = Some (subscriber_of s)
  /\ hub_buf h = cpu_buf s
  /\ hub_appends h = appends s.
Proof.
  intros Hi. cbv zeta.
  induction es as [| e es IH] using rev_ind.
  - cbn. split; [| split; reflexivity].
    apply nth_error_repeat. exact Hi.
  - destruct IH as [Hsub [Hbuf Happ]].
    rewrite hub_run_snoc, project_snoc, run_app.
    set (h := hub_run (hub_init n) es) in *.
    set (s := run init (project i es)) in *.
    destruct e as [r | j | j]; cbn [view hub_step hub_subs hub_buf hub_appends].
    + cbn [run fold_left step cpu_buf appends].
      rewrite Hbuf, Happ. repeat split. exact Hsub.
    + destruct (Nat.eqb_spec j i) as [-> | Hj].
      * cbn [run fold_left].
        destruct (poll_keeps_buffer s) as [Hb Ha].
        rewrite Hb, Ha, <- Hbuf, <- Happ. repeat split.
        rewrite (nth_error_update_same _ _ _ _ Hsub), Hbuf, Happ.
        f_equal. apply sub_poll_step.
      * cbn [run fold_left]. rewrite nth_error_update_other by assumption.
        repeat split; assumption.
    + destruct (Nat.eqb_spec j i) as [-> | Hj].
      * cbn [run fold_left].
        destruct (send_done_keeps_buffer s) as [Hb Ha].
        rewrite Hb, Ha, <- Hbuf, <- Happ. repeat split.
        rewrite (nth_error_update_same _ _ _ _ Hsub), Hbuf.
        f_equal. apply sub_send_done_step.
      * cbn [run fold_left]. rewrite nth_error_update_other by assumption.
        repeat split; assumption.
Qed.

Lemma subscribers_independent_witness :
  let es := [HSample (reading 1); HPoll 0; HPoll 1; HSendDone 0;
             HSample (reading 2); HSendDone 1; HPoll 1; HPoll 0] in
  let h := hub_run (hub_init 2) es in
  let s := run init (project 1 es) in
  nth_error (hub_subs h) 1 = Some (subscriber_of s)
  /\ hub_buf h = cpu_buf s
  /\ hub_appends h = appends s.
Proof.
  cbv zeta. apply subscribers_independent. lia.
Defined.

(** ** More on validation *)

Import Audit.


(** What a float field, bounded or not, makes of a value: [float_validator]
    converts it and the bounds are checked on the float. *)
Lemma float_typed_accepts {py : Builtins} (f : field) (v : value) :
  is_float f = true -> v <> VNone ->
  accepts f v
  = match as_float v with
    | Some x => checks (fconstraints f) (VFloat x)
    | None => false
    end.
Proof.
  destruct f as [n t p cs]. unfold is_float, accepts.
  cbn [ftype fconstraints validate_field]. intros Ht Hv.
  destruct t as [| | | | | | t' | | | |]; try discriminate Ht.
  - cbn [validate converted]. destruct (as_float v); reflexivity.
  - destruct t'; try discriminate Ht.
    destruct v; try (exfalso; apply Hv; reflexivity);
      cbn [validate converted];
      match goal with |- context [as_float ?w] => destruct (as_float w) end;
      reflexivity.
Qed.







Lemma model_rejects_key {py : Builtins} (cls : string) (fs : list field)
    (f : field) (d v : value) :
  In f fs -> key (fname f) d = Some v -> validate_field f (Some v) = false ->
  validate (TModel cls fs) d = false.
Proof.
  intros Hin Hk Hf. destruct d as [| | | | | | | | kvs]; try discriminate Hk.
  cbn [key] in Hk. apply model_rejects with (f := f); [assumption |].
  rewrite Hk. exact Hf.
Qed.

(** A field declared [float] or [Optional[float]] with the bounds of a
    percentage rejects every number outside [0, 100]. *)
Lemma outside_rejected {py : Builtins} (t : ty) (v : value) :
  t = TFloat \/ t = TOptional TFloat -> pct_outside v ->
  validate t v && checks [Ge 0; Le 100] (converted t v) = false.
Proof.
  intros Ht Hout. pose proof (pct_outside_rejected v Hout) as Hr.
  destruct v; try contradiction; destruct Ht as [-> | ->]; exact Hr.
Qed.

(** A storage panel that lists a partition whose [usage_pct] is a number
    outside [0, 100] makes the whole snapshot rejected, whatever else the
    candidate holds. *)
Theorem bad_partition_rejected {py : Builtins} (c storage p v : value)
    (ps : list value) :
  key "storage" c = Some storage ->
  key "partitions" storage = Some (VList ps) ->
  In p ps ->
  key "usage_pct" p = Some v ->
  pct_outside v ->
  validate SystemHealthSnapShot c = false.
Proof.
  intros Hs Hps Hp Hv Hout.
  assert (Hpart : validate DiskPartition p = false).
  { unfold DiskPartition.
    apply model_rejects_key
      with (f := Fld "usage_pct" (TOptional TFloat) (Default VNone) [Ge 0; Le 100])
           (v := v);
      [do 6 right; left; reflexivity | exact Hv |].
    cbn [validate_field]. apply outside_rejected; [right; reflexivity | exact Hout]. }
  assert (Hstore : validate StorageModel storage = false).
  { unfold StorageModel.
    apply model_rejects_key
      with (f := Fld "partitions" (TList DiskPartition) Required [])
           (v := VList ps);
      [right; left; reflexivity | exact Hps |].
    cbn [validate_field validate sequence]. apply andb_false_iff. left.
    apply not_true_is_false. rewrite forallb_forall. intros Hall.
    rewrite (Hall p Hp) in Hpart. discriminate Hpart. }
  unfold SystemHealthSnapShot, panels.
  apply model_rejects_key
    with (f := Fld "storage" (TOptional StorageModel) (Default VNone) [])
         (v := storage);
    [do 5 right; left; reflexivity | exact Hs |].
  cbn [validate_field]. rewrite validate_optional.
  destruct storage; try discriminate Hps. rewrite Hstore. reflexivity.
Qed.

Lemma bad_partition_rejected_witness :
  let part :=
    VDict [("device", VStr "/dev/sda1"); ("mount_point", VStr "/");
           ("fs_type", VStr "ext4"); ("total_bytes", VInt 100);
           ("used_bytes", VInt 100); ("free_bytes", VInt 0);
           ("usage_pct", VFloat (FNum 150))] in
  let c :=
    VDict [("host", VDict []);
           ("storage", VDict [("partitions", VList [part])])] in
  validate SystemHealthSnapShot c = false.
Proof.
  cbv zeta.
  eapply bad_partition_rejected with (v := VFloat (FNum 150));
    [reflexivity | reflexivity | left; reflexivity | reflexivity |].
  right. reflexivity.
Defined.


(** A value that supplies nothing under the name of a required field of a
    model is rejected by the model, and by the optional panel of that
    model. *)
Theorem missing_required_field_rejected {py : Builtins} (t : ty) (d : value)
    (k : string) :
  In k (required_names t) -> supplied k d = None -> d <> VNone ->
  validate t d = false.
Proof.
  assert (Hm : forall cls fs,
             In k (map fname (filter (fun f => is_required (fpresence f)) fs)) ->
             supplied k d = None -> validate (TModel cls fs) d = false).
  { intros cls fs Hin Hk. apply in_map_iff in Hin.
    destruct Hin as [f [<- Hf]]. apply filter_In in Hf. destruct Hf as [Hf Hr].
    rewrite validate_fields. unfold supplied in Hk.
    destruct (as_dict d) as [kvs |]; [| reflexivity].
    apply not_true_is_false. rewrite forallb_forall. intros Hall.
    specialize (Hall f Hf). rewrite Hk in Hall.
    destruct f as [n t' p cs]. cbn [validate_field fpresence] in *.
    rewrite Hr in Hall. discriminate Hall. }
  intros Hin Hk Hd. destruct t as [| | | | | | t' | | | | cls fs];
    try contradiction.
  - destruct t' as [| | | | | | | | | | cls fs]; try contradiction.
    rewrite validate_optional.
    destruct d; try (apply (Hm cls fs Hin Hk)).
    exfalso. apply Hd. reflexivity.
  - apply (Hm cls fs Hin Hk).
Qed.

(** The dict the sampler builds has no [usage_total_pct]: the CPU panel
    rejects it. *)
Lemma missing_required_field_rejected_witness :
  validate (TOptional CPUModel) (cpu_entry (reading 1)) = false.
Proof.
  apply missing_required_field_rejected with (k := "usage_total_pct").
  - left. reflexivity.
  - reflexivity.
  - discriminate.
Defined.

(** The panels [cpu], [ram], [storage], [network] and [crash] have required
    fields; every other panel model has none and accepts an empty dict. *)
Theorem panel_required_fields {py : Builtins} :
  map (fun f => (fname f, required_names (ftype f),
                 validate (ftype f) (VDict []))) panels
  = [("cpu", ["usage_total_pct"], false);
     ("ram", ["total_bytes"; "used_effective_bytes"; "available_bytes";
              "usage_pct"], false);
     ("storage", ["partitions"], false);
     ("network", ["interfaces"], false);
     ("hardware", [], true);
     ("processes", [], true);
     ("services", [], true);
     ("boot", [], true);
     ("logs", [], true);
     ("crash", ["timestamp"], false);
     ("security", [], true);
     ("virtualization", [], true);
     ("remote", [], true);
     ("alerts", [], false)]
  /\ required_names SystemHealthSnapShot = ["host"].
Proof. split; vm_compute; reflexivity. Qed.

(** ** The declared fields, taken together *)

Lemma constraint_eqb_eq (a b : constraint) : constraint_eqb a b = true -> a = b.
Proof.
  destruct a, b; cbn; try discriminate; intros H; apply Z.eqb_eq in H;
    subst; reflexivity.
Qed.

Lemma constraints_eqb_eq (l l' : list constraint) :
  constraints_eqb l l' = true -> l = l'.
Proof.
  revert l'. induction l as [| a l IH]; intros [| a' l']; cbn;
    try discriminate; [reflexivity |].
  intros H. apply andb_prop in H. destruct H as [Ha Hl].
  apply constraint_eqb_eq in Ha. apply IH in Hl. subst. reflexivity.
Qed.

Lemma declared_fields_forall (p : field -> bool) :
  forallb (fun cf => p (snd cf)) declared_fields = true ->
  forall cf, In cf declared_fields -> p (snd cf) = true.
Proof. intros H cf Hin. rewrite forallb_forall in H. exact (H cf Hin). Qed.

(** pydantic does not validate declared defaults; all the same, every
    default declared in the module is a value its own field accepts: the
    [None] defaults belong to [Optional] fields and the string defaults are
    members of their enumerations. *)
Theorem declared_defaults_valid {py : Builtins} :
  Forall (fun cf => match fpresence (snd cf) with
                    | Default v => accepts (snd cf) v = true
                    | _ => True
                    end)
         declared_fields
  /\ select (fun f => match fpresence f with
                      | Default (VStr _) => true
                      | _ => false
                      end)
     = [("NetworkInterface", "type"); ("NetworkInterface", "duplex");
        ("ConnectionStat", "protocol"); ("SecurityModel", "firewall");
        ("SecurityModel", "av"); ("EndpointHealth", "status");
        ("HostInfo", "os")]
  /\ select (fun f => match fpresence f with
                      | Default VNone | Default (VStr _) => false
                      | Default _ => true
                      | _ => false
                      end)
     = [].
Proof.
  split; [| split; vm_compute; reflexivity].
  apply Forall_forall. intros cf Hin.
  assert (Hd : default_ok (snd cf) = true).
  { apply (declared_fields_forall default_ok);
      [vm_compute; reflexivity | exact Hin]. }
  unfold default_ok in Hd. destruct (fpresence (snd cf)); trivial.
Qed.

Lemma bounded_pct_rejects {py : Builtins} (f : field) (v : value) :
  has_bounds [Ge 0; Le 100] f = true -> is_float f = true ->
  pct_outside v -> accepts f v = false.
Proof.
  unfold has_bounds, is_float, accepts. destruct f as [n t p cs].
  cbn [fconstraints ftype]. intros Hb Ht Ho.
  apply constraints_eqb_eq in Hb. subst cs.
  cbn [validate_field]. apply outside_rejected; [| exact Ho].
  destruct t as [| | | | | | t' | | | |]; try discriminate Ht;
    [left; reflexivity |].
  destruct t'; try discriminate Ht. right. reflexivity.
Qed.

(** Every field named as a percentage is a float bounded to [0, 100] and
    rejects numbers outside, with one exception: the battery's [health_pct]
    is only bounded below, so it accepts any float that is not negative, 150
    included. The only other field with the bounds of a percentage is the
    [value] of [Percent]. *)
Theorem percentage_fields_bounds {py : Builtins} :
  select (fun f => is_percentage f && has_bounds [Ge 0; Le 100] f)
  = [("CPUCoreUsage", "usage_pct"); ("TopCPUProcess", "cpu_pct");
     ("CPUModel", "usage_total_pct"); ("SwapStats", "usage_pct");
     ("TopMemoryProcess", "share_pct"); ("RAMModel", "usage_pct");
     ("DiskPartition", "usage_pct"); ("LatencyProbe", "packet_loss_pct");
     ("BatteryStatus", "percent"); ("GPUProcess", "gpu_util_pct");
     ("GPUModel", "usage_pct"); ("ContainerStat", "cpu_pct");
     ("VMStat", "cpu_pct")]
  /\ select (fun f => is_percentage f && negb (has_bounds [Ge 0; Le 100] f))
     = [("BatteryStatus", "health_pct")]
  /\ select (fun f => has_bounds [Ge 0; Le 100] f && negb (is_percentage f))
     = [("Percent", "value")]
  /\ select (fun f => has_bounds [Ge 0; Le 100] f && negb (is_float f)) = []
  /\ (forall cf v, In cf declared_fields ->
        has_bounds [Ge 0; Le 100] (snd cf) = true ->
        pct_outside v -> accepts (snd cf) v = false)
  /\ (let health :=
        Fld "health_pct" (TOptional TFloat) (Default VNone) [Ge 0] in
      In ("BatteryStatus", health) declared_fields
      /\ forall q, accepts health (VFloat (FNum q)) = Qle_bool 0 q).
Proof.
  split; [vm_compute; reflexivity |].
  split; [vm_compute; reflexivity |].
  split; [vm_compute; reflexivity |].
  split; [vm_compute; reflexivity |].
  split.
  - intros cf v Hin Hb Ho. apply bounded_pct_rejects; [exact Hb | | exact Ho].
    assert (Hf : implb (has_bounds [Ge 0; Le 100] (snd cf)) (is_float (snd cf))
                 = true).
    { apply (declared_fields_forall
               (fun f => implb (has_bounds [Ge 0; Le 100] f) (is_float f)));
        [vm_compute; reflexivity | exact Hin]. }
    rewrite Hb in Hf. exact Hf.
  - cbv zeta. split.
    + apply (nth_error_In _ 150). vm_compute. reflexivity.
    + intros q. rewrite float_typed_accepts by (reflexivity || discriminate).
      cbn [as_float fconstraints]. unfold checks. cbn [forallb check fle].
      apply andb_true_r.
Qed.





(** ** A subscriber that keeps up *)

Lemma keeping_up_snoc (rs : list Reading) (r : Reading) :
  keeping_up (rs ++ [r]) = keeping_up rs ++ [Sample r; Poll; SendDone].
Proof. unfold keeping_up. rewrite flat_map_app. cbn. reflexivity. Qed.

Lemma combine_snoc {A B : Type} (l : list A) (l' : list B) (a : A) (b : B) :
  length l = length l' ->
  combine (l ++ [a]) (l' ++ [b]) = combine l l' ++ [(a, b)].
Proof.
  revert l'. induction l as [| x l IH]; intros [| y l'] H;
    cbn in *; try discriminate; [reflexivity |].
  f_equal. apply IH. lia.
Qed.

Lemma keeping_up_state (rs : list Reading) :
  length rs <= maxlen ->
  let s := run init (keeping_up rs) in
  sending s = false
  /\ last_len s = length rs
  /\ length (cpu_buf s) = length rs
  /\ appends s = length rs
  /\ delivered s
     = combine (seq 1 (length rs))
               (map (fun r => VDict [("cpu", cpu_entry r)]) rs).
Proof.
  cbv zeta. induction rs as [| r rs IH] using rev_ind; intros Hlen.
  - cbn. repeat split.
  - rewrite length_app in Hlen |- *. cbn [length] in Hlen |- *.
    destruct IH as [Hs [Hl [Hb [Ha Hd]]]]; [lia |].
    rewrite keeping_up_snoc, run_app.
    set (s := run init (keeping_up rs)) in *.
    cbn [run fold_left step cpu_buf appends last_len sending delivered].
    rewrite Hs.
    assert (Hgrow : length (sampler_cycle (cpu_buf s) r) = S (length rs)).
    { rewrite marker_grows_below_capacity by lia. lia. }
    unfold stream_changed. rewrite Hgrow, Hl.
    replace (S (length rs) =? length rs) with false
      by (symmetry; apply Nat.eqb_neq; lia).
    cbn [Nat.eqb negb andb cpu_buf appends last_len sending delivered].
    repeat split; try lia.
    rewrite Hd, Ha. unfold stream_message, sampler_cycle.
    rewrite append_below by lia. rewrite last_last.
    rewrite map_app. cbn [map].
    replace (length rs + 1) with (S (length rs)) by lia.
    rewrite seq_S, combine_snoc by (rewrite length_seq, length_map; reflexivity).
    reflexivity.
Qed.

(** While the buffer has not been filled, a subscriber that polls after
    every cycle is sent every entry, once and in order. *)
Theorem keeping_up_receives_all (rs : list Reading) :
  length rs <= maxlen ->
  delivered (run init (keeping_up rs))
  = combine (seq 1 (length rs))
            (map (fun r => VDict [("cpu", cpu_entry r)]) rs).
Proof. intros H. apply (keeping_up_state rs H). Qed.

Lemma keeping_up_receives_all_witness :
  delivered (run init (keeping_up [reading 1; reading 2; reading 3]))
  = [(1, VDict [("cpu", cpu_entry (reading 1))]);
     (2, VDict [("cpu", cpu_entry (reading 2))]);
     (3, VDict [("cpu", cpu_entry (reading 3))])].
Proof.
  apply (keeping_up_receives_all [reading 1; reading 2; reading 3]).
  unfold maxlen. cbn [length]. lia.
Defined.

(** ** The addresses of an interface *)

(** [NetworkInterface] declares no [addresses] field (the class attribute
    has no annotation), so the verdict on an interface does not depend on
    what it holds under [addresses]. *)
Theorem interface_addresses_unchecked {py : Builtins} (d : value)
    (g : value -> value) :
  validate NetworkInterface (on_key "addresses" g d)
  = validate NetworkInterface d.
Proof.
  destruct d as [| | | | | | | | kvs]; try reflexivity.
  cbn [on_key]. unfold NetworkInterface. rewrite !validate_model.
  cbn [forallb fname]. rewrite !dict_get_update. reflexivity.
Qed.
